(** * azureml-examples: the three tutorial notebooks, embedded and checked

    The repository holds three notebooks: attaching a Synapse Spark pool
    (SDK calls), querying the MLflow REST API (HTTP calls), and logging
    models with MLflow (the pyfunc classes [ModelWrapper], [MyModel] and
    the loader function [_load_pyfunc]).  Each notebook is embedded as the
    sequence of calls its cells make; third-party libraries (azure-ai-ml,
    requests, pandas, xgboost, mlflow) appear as the calls handed to them
    or as explicitly documented models of their behaviour. *)

From Stdlib Require Import Ascii String.
From stdpp Require Import base option list strings gmap pretty.

Local Open Scope string_scope.
Local Open Scope list_scope.
Set Warnings "-register-all".

(* ===================================================================== *)
(** * Compute attachment notebook *)
(* ===================================================================== *)

Module Compute.

(** [azure.ai.ml.entities.UserAssignedIdentity(resource_id=...)] *)
Record UserAssignedIdentity := {
  uai_resource_id : string
}.

(** [azure.ai.ml.entities.IdentityConfiguration(type=...,
    user_assigned_identities=...)]; the keyword defaults to [None]. *)
Record IdentityConfiguration := {
  type : string;
  user_assigned_identities : option (list UserAssignedIdentity)
}.

(** [SynapseSparkCompute(name=..., resource_id=..., identity=...)]: the
    three keywords the notebook ever passes; [identity] defaults to [None]. *)
Record SynapseSparkCompute := {
  name : string;
  resource_id : string;
  identity : option IdentityConfiguration
}.

(** [MLClient(DefaultAzureCredential(), subscription_id, resource_group,
    workspace_name)] *)
Record MLClient := {
  subscription_id : string;
  resource_group : string;
  workspace_name : string
}.

(** The two management calls the cells submit. *)
Inductive sdk_call :=
| begin_create_or_update (client : MLClient) (entity : SynapseSparkCompute)
| compute_begin_delete (client : MLClient) (name : string) (action : string).

(** The values a user substitutes for the notebook's placeholders. *)
Record settings := {
  SUBSCRIPTION_ID : string;
  RESOURCE_GROUP : string;
  AML_WORKSPACE_NAME : string;
  ATTACHED_SPARK_POOL_NAME : string;
  SYNAPSE_WORKSPACE_NAME : string;
  SPARK_POOL_NAME : string;
  USER_ASSIGNED_IDENTITY : string
}.

Definition ml_client (s : settings) : MLClient :=
  {| subscription_id := SUBSCRIPTION_ID s;
     resource_group := RESOURCE_GROUP s;
     workspace_name := AML_WORKSPACE_NAME s |}.

Definition synapse_name (s : settings) : string := ATTACHED_SPARK_POOL_NAME s.

Definition synapse_resource (s : settings) : string :=
  "/subscriptions/" +:+ SUBSCRIPTION_ID s +:+ "/resourceGroups/" +:+ RESOURCE_GROUP s
  +:+ "/providers/Microsoft.Synapse/workspaces/" +:+ SYNAPSE_WORKSPACE_NAME s
  +:+ "/bigDataPools/" +:+ SPARK_POOL_NAME s.

(** The user-assigned identity's resource id, one string literal of the
    third cell, taken whole: as written it does not close the bracket of
    its first placeholder, so it is not assembled from the other values. *)
Definition user_identity_resource (s : settings) : string := USER_ASSIGNED_IDENTITY s.

(** Cell "Attach a Synapse Spark pool". *)
Definition attach_pool (s : settings) : list sdk_call :=
  let synapse_comp :=
    {| name := synapse_name s; resource_id := synapse_resource s; identity := None |} in
  [begin_create_or_update (ml_client s) synapse_comp].

(** Cell "Attach a Synapse Spark pool with system-assigned identity". *)
Definition attach_pool_system_identity (s : settings) : list sdk_call :=
  let synapse_identity :=
    {| type := "SystemAssigned"; user_assigned_identities := None |} in
  let synapse_comp :=
    {| name := synapse_name s; resource_id := synapse_resource s;
       identity := Some synapse_identity |} in
  [begin_create_or_update (ml_client s) synapse_comp].

(** Cell "Attach a Synapse Spark pool with user-assigned identity". *)
Definition attach_pool_user_identity (s : settings) : list sdk_call :=
  let synapse_identity :=
    {| type := "UserAssigned";
       user_assigned_identities :=
         Some [ {| uai_resource_id := user_identity_resource s |} ] |} in
  let synapse_comp :=
    {| name := synapse_name s; resource_id := synapse_resource s;
       identity := Some synapse_identity |} in
  [begin_create_or_update (ml_client s) synapse_comp].

(** Cell "Detach an attached Synapse Spark pool". *)
Definition detach_pool (s : settings) : list sdk_call :=
  [compute_begin_delete (ml_client s) (synapse_name s) "Detach"].

(** The three attach cells, indexed. *)
Inductive attach_variant := Plain | SystemAssigned | UserAssigned.

Definition attach (v : attach_variant) : settings -> list sdk_call :=
  match v with
  | Plain => attach_pool
  | SystemAssigned => attach_pool_system_identity
  | UserAssigned => attach_pool_user_identity
  end.

Definition identity_variant (v : attach_variant) : bool :=
  match v with Plain => false | _ => true end.

(** The notebook as written, placeholders unfilled. *)
Definition placeholders : settings :=
  {| SUBSCRIPTION_ID := "<SUBSCRIPTION_ID>";
     RESOURCE_GROUP := "<RESOURCE_GROUP>";
     AML_WORKSPACE_NAME := "<AML_WORKSPACE_NAME>";
     ATTACHED_SPARK_POOL_NAME := "<ATTACHED_SPARK_POOL_NAME>";
     SYNAPSE_WORKSPACE_NAME := "<SYNAPSE_WORKSPACE_NAME>";
     SPARK_POOL_NAME := "<SPARK_POOL_NAME>";
     USER_ASSIGNED_IDENTITY :=
       "/subscriptions/<SUBSCRIPTION_ID/resourceGroups/<RESOURCE_GROUP>/providers/Microsoft.ManagedIdentity/userAssignedIdentities/<AML_USER_MANAGED_ID>" |}.

Example synapse_resource_placeholders :
  synapse_resource placeholders =
  "/subscriptions/<SUBSCRIPTION_ID>/resourceGroups/<RESOURCE_GROUP>/providers/Microsoft.Synapse/workspaces/<SYNAPSE_WORKSPACE_NAME>/bigDataPools/<SPARK_POOL_NAME>".
Proof. reflexivity. Qed.

(** Every attach cell submits one create-or-update call and nothing else. *)
Lemma attach_single_call (v : attach_variant) (s : settings) :
  ∃ c, attach v s = [begin_create_or_update (ml_client s) c].
Proof. destruct v; eexists; reflexivity. Qed.

(** C8: every attach variant submits, through the create-or-update call, a
    descriptor whose name is the pool name, whose resource id is the
    external resource id, and which carries an identity descriptor exactly
    in the two identity variants; the detach cell calls the delete endpoint
    with the pool name and the action string "Detach". *)
Theorem compute_request_shape (s : settings) :
  (∀ v : attach_variant,
     ∃ ident : option IdentityConfiguration,
       attach v s =
         [begin_create_or_update (ml_client s)
            {| name := synapse_name s;
               resource_id := synapse_resource s;
               identity := ident |}]
       ∧ (is_Some ident ↔ identity_variant v = true))
  ∧ detach_pool s = [compute_begin_delete (ml_client s) (synapse_name s) "Detach"].
Proof.
  split; [|reflexivity].
  intros [].
  - exists None. split; [reflexivity|].
    split; [intros [? ?]; discriminate | discriminate].
  - eexists (Some _). split; [reflexivity|].
    split; [reflexivity | intros _; eexists; reflexivity].
  - eexists (Some _). split; [reflexivity|].
    split; [reflexivity | intros _; eexists; reflexivity].
Qed.

End Compute.

(* ===================================================================== *)
(** * MLflow REST notebook *)
(* ===================================================================== *)

Module Tracking.

(** ** Python values the notebook handles *)

(** What [Response.json()] returns.  A JSON object becomes a Python dict;
    it is kept as its items in insertion order (pandas derives column order
    from it), looked up by first match.  Number literals are kept as text. *)
Inductive json :=
| JNull
| JBool (b : bool)
| JNum (literal : string)
| JStr (s : string)
| JArr (items : list json)
| JObj (items : list (string * json)).

Inductive exn :=
| KeyError (key : string)
| TypeError
| JSONDecodeError
| RequestException.

Inductive outcome (A : Type) :=
| Raised (e : exn)
| Returned (a : A).
Arguments Raised {A} e.
Arguments Returned {A} a.

Fixpoint assoc {A : Type} (k : string) (d : list (string * A)) : option A :=
  match d with
  | [] => None
  | (k', v) :: d' => if decide (k = k') then Some v else assoc k d'
  end.

(** [v[k]] for a string key: a dict raises [KeyError] on a missing key;
    every other JSON value rejects a string subscript with [TypeError]. *)
Definition getitem (v : json) (k : string) : outcome json :=
  match v with
  | JObj d => match assoc k d with Some x => Returned x | None => Raised (KeyError k) end
  | _ => Raised TypeError
  end.

(** ** The libraries' side *)

Record table := {
  columns : list string;
  rows : list (list (option json))
}.

(** What is left to the Python runtime: how [str] renders a value that is
    not a string, and what [pd.DataFrame] makes of an argument that is not
    a list of dicts. *)
Record runtime := {
  str_other : json -> string;
  frame_other : json -> outcome table
}.

(** [str(v)], as an f-string field applies it. *)
Definition py_str (rt : runtime) (v : json) : string :=
  match v with JStr s => s | _ => str_other rt v end.

Definition as_record (v : json) : option (list (string * json)) :=
  match v with JObj d => Some d | _ => None end.

Definition records_of (v : json) : option (list (list (string * json))) :=
  match v with
  | JArr items => mapM as_record items
  | _ => None
  end.

Definition add_column (cols : list string) (k : string) : list string :=
  if bool_decide (k ∈ cols) then cols else cols ++ [k].

(** Column labels of a list of dicts: keys in order of first appearance. *)
Definition union_columns (records : list (list (string * json))) : list string :=
  foldl (fun cols r => foldl add_column cols (r.*1)) [] records.

(** [pd.DataFrame(records)] for a list of dicts: one row per dict, a
    missing key left empty (NaN).  Cells hold the decoded values as they
    are; the conversion pandas applies to the values of a column (a numeric
    column with an empty cell becomes floating point) is not represented. *)
Definition frame_of_records (records : list (list (string * json))) : table :=
  let cols := union_columns records in
  {| columns := cols;
     rows := map (fun r => map (fun c => assoc c r) cols) records |}.

Definition pd_DataFrame (rt : runtime) (v : json) : outcome table :=
  match records_of v with
  | Some records => Returned (frame_of_records records)
  | None => frame_other rt v
  end.

(** ** HTTP *)

Inductive request :=
| POST (url : string) (data : string)
| GET (url : string) (headers : list (string * string)).

(** A response as the notebook sees it: a status code, which no cell reads,
    and the body as [.json()] decodes it ([None]: the body is not JSON). *)
Record response := {
  status_code : nat;
  content : option json
}.

(** The remote side: a response, or no response at all. *)
Definition server := request -> outcome response.

Definition json_method (r : response) : outcome json :=
  match content r with
  | Some j => Returned j
  | None => Raised JSONDecodeError
  end.

(** Cells run in order until one raises; the requests issued so far are
    recorded. *)
Definition W (A : Type) : Type := list request * outcome A.

Definition lift {A} (o : outcome A) : W A := ([], o).

Definition bind {A B} (m : W A) (k : A -> W B) : W B :=
  match m with
  | (t, Raised e) => (t, Raised e)
  | (t, Returned a) => let '(t', r) := k a in (t ++ t', r)
  end.

Notation "'let!' x ':=' m 'in' k" := (bind m (fun x => k))
  (at level 10, x name, m at level 100, k at level 200).

Definition requests_post (srv : server) (url data : string) : W response :=
  ([POST url data], srv (POST url data)).

Definition requests_get (srv : server) (url : string)
  (headers : list (string * string)) : W response :=
  ([GET url headers], srv (GET url headers)).

(** ** The notebook's cells *)

(** The values a user substitutes for the notebook's ["<>"] placeholders,
    and the workspace's region. *)
Record settings := {
  tenant_id : string;
  client_id : string;
  client_secret : string;
  subscription_id : string;
  resource_group : string;
  workspace_name : string;
  location : string
}.

Definition grant_type : string := "client_credentials".
Definition resource_scope : string := "https://management.azure.com".

Definition mso_url (c : settings) : string :=
  "https://login.microsoftonline.com/" +:+ tenant_id c +:+ "/oauth2/token?".

Definition mso_body (c : settings) : string :=
  "grant_type=" +:+ grant_type +:+ "&client_id=" +:+ client_id c
  +:+ "&client_secret=" +:+ client_secret c +:+ "&resource=" +:+ resource_scope.

Definition azure_ml_mlflow_base (c : settings) : string :=
  "https://" +:+ location c +:+ ".api.azureml.ms/mlflow/v1.0/subscriptions/"
  +:+ subscription_id c +:+ "/resourceGroups/" +:+ resource_group c
  +:+ "/providers/Microsoft.MachineLearningServices/workspaces/" +:+ workspace_name c.

Definition mlflow_api_path : string := "api/2.0/mlflow".

(** [auth_response = requests.post(...)]; [token_data = auth_response.json()] *)
Definition authenticate (srv : server) (c : settings) : W json :=
  let! auth_response := requests_post srv (mso_url c) (mso_body c) in
  lift (json_method auth_response).

(** The [headers = {...}] cell; the f-string reads ['token_type'] first. *)
Definition headers_cell (rt : runtime) (token_data : json)
  : outcome (list (string * string)) :=
  match getitem token_data "token_type" with
  | Raised e => Raised e
  | Returned token_type =>
    match getitem token_data "access_token" with
    | Raised e => Raised e
    | Returned access_token =>
      Returned [ ("Content-Type", "application/json");
                 ("Authorization", py_str rt token_type +:+ " " +:+ py_str rt access_token) ]
    end
  end.

Definition experiments_url (c : settings) : string :=
  azure_ml_mlflow_base c +:+ "/" +:+ mlflow_api_path +:+ "/experiments/list".

(** [response = requests.get(...)]; [data = response.json()];
    [pd.DataFrame(data["experiments"])] *)
Definition list_experiments (rt : runtime) (srv : server) (c : settings)
  (headers : list (string * string)) : W table :=
  let! response := requests_get srv (experiments_url c) headers in
  let! data := lift (json_method response) in
  let! experiments := lift (getitem data "experiments") in
  lift (pd_DataFrame rt experiments).

(** The notebook, top to bottom. *)
Definition notebook (rt : runtime) (srv : server) (c : settings) : W table :=
  let! token_data := authenticate srv c in
  let! headers := lift (headers_cell rt token_data) in
  list_experiments rt srv c headers.

(** The notebook as written, placeholders unfilled. *)
Definition placeholders : settings :=
  {| tenant_id := "<>"; client_id := "<>"; client_secret := "<>";
     subscription_id := "<>"; resource_group := "<>"; workspace_name := "<>";
     location := "eastus" |}.

(** The URL as the specification words it: the base URL, then the suffix,
    then the endpoint, with nothing in between. *)
Definition claimed_experiments_url (c : settings) : string :=
  azure_ml_mlflow_base c +:+ "api/2.0/mlflow" +:+ "/experiments/list".

(** ** Reading a form body *)

Definition form_field (kv : string * string) : string := kv.1 +:+ "=" +:+ kv.2.

Fixpoint join (sep : string) (l : list string) : string :=
  match l with
  | [] => ""
  | [x] => x
  | x :: l' => x +:+ sep +:+ join sep l'
  end.

(** A body of [key=value] items separated by ampersands. *)
Definition form_body (fields : list (string * string)) : string :=
  join "&" (map form_field fields).

Fixpoint occurs (a : ascii) (s : string) : bool :=
  match s with
  | EmptyString => false
  | String b s' => bool_decide (a = b) || occurs a s'
  end.

Fixpoint split_on (sep : ascii) (s : string) : list string :=
  match s with
  | EmptyString => [EmptyString]
  | String a s' =>
    if bool_decide (sep = a) then EmptyString :: split_on sep s'
    else match split_on sep s' with
         | x :: xs => String a x :: xs
         | [] => [String a EmptyString]
         end
  end.

Fixpoint cut_at (sep : ascii) (s : string) : string * string :=
  match s with
  | EmptyString => (EmptyString, EmptyString)
  | String a s' =>
    if bool_decide (sep = a) then (EmptyString, s')
    else let '(k, v) := cut_at sep s' in (String a k, v)
  end.

(** How the receiving side reads such a body (percent-decoding apart):
    items between ampersands, each cut at its first equals sign. *)
Definition form_fields (body : string) : list (string * string) :=
  match body with
  | EmptyString => []
  | _ => map (cut_at "=") (split_on "&" body)
  end.

Definition is_post (r : request) : bool :=
  match r with POST _ _ => true | GET _ _ => false end.

Definition posts (t : list request) : list request := filter is_post t.

(** A server answering as [srv] does, its status codes replaced. *)
Definition with_status (f : request -> nat) (srv : server) : server :=
  fun rq =>
    match srv rq with
    | Returned r => Returned {| status_code := f rq; content := content r |}
    | Raised e => Raised e
    end.

(** ** Facts about form bodies *)

Lemma occurs_app (a : ascii) (u v : string) :
  occurs a (u +:+ v) = occurs a u || occurs a v.
Proof.
  induction u as [|b u IH]; simpl; [reflexivity|].
  rewrite IH. apply orb_assoc.
Qed.

Lemma split_on_without (sep : ascii) (u : string) :
  occurs sep u = false → split_on sep u = [u].
Proof.
  induction u as [|b u IH]; simpl; [reflexivity|].
  intros H. apply orb_false_iff in H as [Hb Hu].
  rewrite Hb, (IH Hu). reflexivity.
Qed.

Lemma split_on_app (sep : ascii) (u v : string) :
  occurs sep u = false →
  split_on sep (u +:+ String sep v) = u :: split_on sep v.
Proof.
  induction u as [|b u IH]; simpl.
  - intros _. rewrite bool_decide_eq_true_2; reflexivity.
  - intros H. apply orb_false_iff in H as [Hb Hu].
    rewrite Hb, (IH Hu). reflexivity.
Qed.

Lemma cut_at_app (sep : ascii) (k v : string) :
  occurs sep k = false → cut_at sep (k +:+ String sep v) = (k, v).
Proof.
  induction k as [|b k IH]; simpl.
  - intros _. rewrite bool_decide_eq_true_2; reflexivity.
  - intros H. apply orb_false_iff in H as [Hb Hk].
    rewrite Hb, (IH Hk). reflexivity.
Qed.

(** A field whose key has no equals sign and which has no ampersand. *)
Definition plain_field (kv : string * string) : bool :=
  negb (occurs "=" kv.1) && negb (occurs "&" kv.1) && negb (occurs "&" kv.2).

Lemma form_field_no_amp (kv : string * string) :
  plain_field kv = true → occurs "&" (form_field kv) = false.
Proof.
  destruct kv as [k v]. unfold plain_field, form_field. simpl.
  intros H. apply andb_true_iff in H as [H Hv]. apply andb_true_iff in H as [_ Hk].
  apply negb_true_iff in Hk, Hv.
  rewrite occurs_app, Hk. cbn. exact Hv.
Qed.

Lemma cut_form_field (kv : string * string) :
  plain_field kv = true → cut_at "=" (form_field kv) = kv.
Proof.
  destruct kv as [k v]. unfold plain_field, form_field. simpl.
  intros H. apply andb_true_iff in H as [H _]. apply andb_true_iff in H as [Hk _].
  apply negb_true_iff in Hk.
  apply (cut_at_app "=" k v Hk).
Qed.

Lemma split_form_body (fields : list (string * string)) :
  forallb plain_field fields = true →
  fields ≠ [] →
  split_on "&" (form_body fields) = map form_field fields.
Proof.
  unfold form_body.
  induction fields as [|kv rest IH]; [congruence|].
  intros Hall _. simpl in Hall. apply andb_true_iff in Hall as [Hkv Hrest].
  destruct rest as [|kv' rest].
  - simpl. apply split_on_without, form_field_no_amp, Hkv.
  - change (join "&" (map form_field (kv :: kv' :: rest)))
      with (form_field kv +:+ String "&" (join "&" (map form_field (kv' :: rest)))).
    rewrite split_on_app by (apply form_field_no_amp, Hkv).
    rewrite IH by (assumption || congruence). reflexivity.
Qed.

Lemma form_field_nonempty (kv : string * string) (t : string) :
  form_field kv +:+ t ≠ "".
Proof. destruct kv as [[|a k] v]; discriminate. Qed.

Lemma form_body_nonempty (kv : string * string) (rest : list (string * string)) :
  form_body (kv :: rest) ≠ "".
Proof.
  unfold form_body. destruct rest as [|kv' rest]; simpl.
  - intros E. apply (form_field_nonempty kv ""). rewrite E. reflexivity.
  - apply form_field_nonempty.
Qed.

(** Reading back a body written from plain fields returns the fields. *)
Lemma form_fields_form_body (fields : list (string * string)) :
  forallb plain_field fields = true →
  form_fields (form_body fields) = fields.
Proof.
  intros Hall. destruct fields as [|kv rest]; [reflexivity|].
  unfold form_fields.
  pose proof (form_body_nonempty kv rest) as Hne.
  destruct (form_body (kv :: rest)) eqn:E; [congruence|].
  rewrite <- E. rewrite split_form_body by (assumption || congruence).
  rewrite map_map.
  clear E Hne. induction (kv :: rest) as [|x l IH]; [reflexivity|].
  simpl in Hall. apply andb_true_iff in Hall as [Hx Hl].
  simpl. rewrite cut_form_field by assumption. rewrite IH by assumption. reflexivity.
Qed.

(** ** The token exchange *)

Lemma mso_body_fields (c : settings) :
  mso_body c =
  form_body [ ("grant_type", "client_credentials"); ("client_id", client_id c);
              ("client_secret", client_secret c); ("resource", resource_scope) ].
Proof. reflexivity. Qed.

(** Read back by the receiving side, the body is the four fields, provided
    the two substituted values bring no separator of their own: the cell
    inserts them verbatim. *)
Lemma mso_body_read_back (c : settings) :
  occurs "&" (client_id c) = false →
  occurs "&" (client_secret c) = false →
  form_fields (mso_body c) =
  [ ("grant_type", "client_credentials"); ("client_id", client_id c);
    ("client_secret", client_secret c); ("resource", "https://management.azure.com") ].
Proof.
  intros Hid Hsec. rewrite mso_body_fields.
  apply form_fields_form_body.
  unfold plain_field. simpl. rewrite Hid, Hsec. reflexivity.
Qed.

Lemma authenticate_trace (srv : server) (c : settings) :
  (authenticate srv c).1 = [POST (mso_url c) (mso_body c)].
Proof.
  unfold authenticate, requests_post, bind, lift.
  destruct (srv _) as [e|r]; reflexivity.
Qed.

Lemma list_experiments_trace (rt : runtime) (srv : server) (c : settings)
  (headers : list (string * string)) :
  (list_experiments rt srv c headers).1 = [GET (experiments_url c) headers].
Proof.
  unfold list_experiments, requests_get, bind, lift.
  destruct (srv _) as [e|r]; [reflexivity|].
  destruct (json_method r) as [e|data]; [reflexivity|].
  destruct (getitem data "experiments") as [e|v]; reflexivity.
Qed.

(** Whatever the remote side answers, the notebook posts once. *)
Lemma notebook_posts_once (rt : runtime) (srv : server) (c : settings) :
  posts (notebook rt srv c).1 = [POST (mso_url c) (mso_body c)].
Proof.
  unfold notebook.
  pose proof (authenticate_trace srv c) as Ha.
  destruct (authenticate srv c) as [ta [e|token_data]]; simpl in Ha; subst ta;
    [reflexivity|].
  unfold bind at 1. unfold lift, bind at 1.
  destruct (headers_cell rt token_data) as [e|headers]; [reflexivity|].
  pose proof (list_experiments_trace rt srv c headers) as Hl.
  destruct (list_experiments rt srv c headers) as [tl r]; simpl in Hl; subst tl.
  reflexivity.
Qed.

(** C6: the authentication step issues one POST, and the notebook no other;
    its body is the four fields grant_type, client_id, client_secret and
    resource, with grant_type equal to "client_credentials"; and when the
    response JSON carries token_type and access_token, the Authorization
    header sent with the following request is the two, rendered as text and
    separated by one space. *)
Theorem token_exchange_shape (rt : runtime) (srv : server) (c : settings)
  (status : nat) (d : list (string * json)) (token_type access_token : json) :
  srv (POST (mso_url c) (mso_body c))
    = Returned {| status_code := status; content := Some (JObj d) |} →
  assoc "token_type" d = Some token_type →
  assoc "access_token" d = Some access_token →
  let authorization := py_str rt token_type +:+ " " +:+ py_str rt access_token in
  let headers := [ ("Content-Type", "application/json"); ("Authorization", authorization) ] in
  (authenticate srv c).1 = [POST (mso_url c) (mso_body c)]
  ∧ (∀ srv', posts (notebook rt srv' c).1 = [POST (mso_url c) (mso_body c)])
  ∧ mso_body c =
      form_body [ ("grant_type", "client_credentials"); ("client_id", client_id c);
                  ("client_secret", client_secret c); ("resource", resource_scope) ]
  ∧ headers_cell rt (JObj d) = Returned headers
  ∧ (notebook rt srv c).1 =
      [ POST (mso_url c) (mso_body c); GET (experiments_url c) headers ].
Proof.
  intros Hsrv Htt Hat authorization headers.
  assert (Hh : headers_cell rt (JObj d) = Returned headers).
  { unfold headers_cell, getitem. rewrite Htt, Hat. reflexivity. }
  split; [apply authenticate_trace|].
  split; [intros srv'; apply notebook_posts_once|].
  split; [apply mso_body_fields|].
  split; [exact Hh|].
  unfold notebook, authenticate, requests_post.
  rewrite Hsrv. unfold json_method. cbn [content bind lift app].
  rewrite Hh.
  pose proof (list_experiments_trace rt srv c headers) as Hl.
  destruct (list_experiments rt srv c headers) as [tl r]. simpl in Hl. subst tl.
  reflexivity.
Qed.

(** ** The experiments query *)

(** C7, as amended: the experiments query issues one GET whose URL is the
    workspace tracking base URL, a slash, the fixed suffix "api/2.0/mlflow"
    and "/experiments/list"; when the response is a JSON object with an
    "experiments" field, that field's value is what is handed to
    pd.DataFrame, and a list of records becomes a table with one row per
    record. *)
Theorem experiments_request_shape (rt : runtime) (srv : server) (c : settings)
  (headers : list (string * string)) (status : nat) (d : list (string * json))
  (experiments : json) :
  srv (GET (experiments_url c) headers)
    = Returned {| status_code := status; content := Some (JObj d) |} →
  assoc "experiments" d = Some experiments →
  experiments_url c =
    azure_ml_mlflow_base c +:+ "/" +:+ "api/2.0/mlflow" +:+ "/experiments/list"
  ∧ list_experiments rt srv c headers =
      ([GET (experiments_url c) headers], pd_DataFrame rt experiments)
  ∧ (∀ records, records_of experiments = Some records →
       pd_DataFrame rt experiments = Returned (frame_of_records records)
       ∧ length (rows (frame_of_records records)) = length records).
Proof.
  intros Hsrv Hexp.
  split; [reflexivity|]. split.
  - unfold list_experiments, requests_get. rewrite Hsrv.
    unfold json_method, getitem. cbn [content bind lift app].
    rewrite Hexp. cbn [bind lift app].
    destruct (pd_DataFrame rt experiments); reflexivity.
  - intros records Hrec. unfold pd_DataFrame. rewrite Hrec.
    split; [reflexivity|]. unfold frame_of_records. simpl.
    apply length_map.
Qed.

(** C10: when the GET response's JSON object has no "experiments" key, the
    tabulation step raises KeyError("experiments"), whatever the status
    code; no table, empty or otherwise, is produced. *)
Theorem experiments_lookup_unguarded (rt : runtime) (srv : server) (c : settings)
  (headers : list (string * string)) (status : nat) (d : list (string * json)) :
  srv (GET (experiments_url c) headers)
    = Returned {| status_code := status; content := Some (JObj d) |} →
  assoc "experiments" d = None →
  list_experiments rt srv c headers =
    ([GET (experiments_url c) headers], Raised (KeyError "experiments")).
Proof.
  intros Hsrv Hexp.
  unfold list_experiments, requests_get. rewrite Hsrv.
  unfold json_method, getitem. cbn [content bind lift app].
  rewrite Hexp. reflexivity.
Qed.

(** An empty table is what an explicit empty list gives. *)
Lemma experiments_empty_list (rt : runtime) (srv : server) (c : settings)
  (headers : list (string * string)) (status : nat) :
  srv (GET (experiments_url c) headers)
    = Returned {| status_code := status;
                  content := Some (JObj [("experiments", JArr [])]) |} →
  list_experiments rt srv c headers =
    ([GET (experiments_url c) headers], Returned {| columns := []; rows := [] |}).
Proof.
  intros Hsrv. unfold list_experiments, requests_get. rewrite Hsrv. reflexivity.
Qed.

(** ** The unchecked token response *)

(** No cell reads a status code: replacing them changes nothing. *)
Lemma notebook_ignores_status (rt : runtime) (srv : server) (c : settings)
  (f : request -> nat) :
  notebook rt (with_status f srv) c = notebook rt srv c.
Proof.
  unfold notebook, authenticate, list_experiments, requests_post, requests_get.
  unfold with_status at 1.
  destruct (srv (POST _ _)) as [e|r]; [reflexivity|].
  unfold json_method. cbn [content bind lift app].
  destruct (content r) as [token_data|]; [|reflexivity].
  cbn [bind lift app].
  destruct (headers_cell rt token_data) as [e|headers]; [reflexivity|].
  cbn [bind lift app]. unfold with_status.
  destruct (srv (GET _ _)) as [e|r']; reflexivity.
Qed.

(** C9: the status of the OAuth response is never read, and when its JSON
    object lacks token_type or access_token (an OAuth error body, say), the
    headers cell raises KeyError on the first of the two that is missing;
    the notebook stops there, having issued its one POST and nothing else:
    no fallback value, no default, no second attempt. *)
Theorem oauth_response_unchecked (rt : runtime) (srv : server) (c : settings)
  (status : nat) (d : list (string * json)) :
  srv (POST (mso_url c) (mso_body c))
    = Returned {| status_code := status; content := Some (JObj d) |} →
  assoc "token_type" d = None ∨ assoc "access_token" d = None →
  ∃ key : string,
    (key = "token_type" ∨ key = "access_token")
    ∧ assoc key d = None
    ∧ headers_cell rt (JObj d) = Raised (KeyError key)
    ∧ notebook rt srv c = ([POST (mso_url c) (mso_body c)], Raised (KeyError key))
    ∧ (∀ f, notebook rt (with_status f srv) c = notebook rt srv c).
Proof.
  intros Hsrv Hmissing.
  assert (Hkey : ∃ key, (key = "token_type" ∨ key = "access_token")
                        ∧ assoc key d = None
                        ∧ headers_cell rt (JObj d) = Raised (KeyError key)).
  { unfold headers_cell, getitem.
    destruct (assoc "token_type" d) as [tt|] eqn:Htt.
    - destruct Hmissing as [H|H]; [discriminate|].
      exists "access_token". rewrite H. auto.
    - exists "token_type". auto. }
  destruct Hkey as (key & Hk & Hnone & Hh).
  exists key. repeat split; try assumption.
  - unfold notebook, authenticate, requests_post. rewrite Hsrv.
    unfold json_method. cbn [content bind lift app]. rewrite Hh. reflexivity.
  - intros f. apply notebook_ignores_status.
Qed.

(** ** Sample runs *)

Definition sample_runtime : runtime :=
  {| str_other := fun _ => "None"; frame_other := fun _ => Raised TypeError |}.

Definition sample_settings : settings :=
  {| tenant_id := "contoso"; client_id := "app-1"; client_secret := "s3cret";
     subscription_id := "sub-1"; resource_group := "rg-1"; workspace_name := "ws-1";
     location := "eastus" |}.

Definition token_object : list (string * json) :=
  [ ("token_type", JStr "Bearer"); ("expires_in", JStr "3599");
    ("access_token", JStr "eyJ0eXAi") ].

Definition experiments_object : list (string * json) :=
  [ ("experiments",
     JArr [ JObj [ ("experiment_id", JStr "ae8d6548"); ("name", JStr "gas-mixture-ppc");
                   ("lifecycle_stage", JStr "active") ];
            JObj [ ("experiment_id", JStr "a806d448"); ("name", JStr "Default");
                   ("lifecycle_stage", JStr "active"); ("creation_time", JNum "1643656927962") ] ]) ].

(** A service that answers both requests as the notebook expects. *)
Definition sample_server : server :=
  fun rq =>
    match rq with
    | POST _ _ => Returned {| status_code := 200; content := Some (JObj token_object) |}
    | GET _ _ => Returned {| status_code := 200; content := Some (JObj experiments_object) |}
    end.

Definition oauth_error_object : list (string * json) :=
  [ ("error", JStr "invalid_client");
    ("error_description", JStr "AADSTS7000215: Invalid client secret provided.") ].

(** A service that rejects the credentials and, asked for experiments,
    answers with an object that has no such field. *)
Definition refusing_server : server :=
  fun rq =>
    match rq with
    | POST _ _ => Returned {| status_code := 401; content := Some (JObj oauth_error_object) |}
    | GET _ _ => Returned {| status_code := 200; content := Some (JObj []) |}
    end.

Definition bearer_headers : list (string * string) :=
  [ ("Content-Type", "application/json"); ("Authorization", "Bearer eyJ0eXAi") ].

Example sample_run :
  notebook sample_runtime sample_server sample_settings =
  ( [ POST "https://login.microsoftonline.com/contoso/oauth2/token?"
           "grant_type=client_credentials&client_id=app-1&client_secret=s3cret&resource=https://management.azure.com";
      GET "https://eastus.api.azureml.ms/mlflow/v1.0/subscriptions/sub-1/resourceGroups/rg-1/providers/Microsoft.MachineLearningServices/workspaces/ws-1/api/2.0/mlflow/experiments/list"
          bearer_headers ],
    Returned
      {| columns := ["experiment_id"; "name"; "lifecycle_stage"; "creation_time"];
         rows := [ [ Some (JStr "ae8d6548"); Some (JStr "gas-mixture-ppc");
                     Some (JStr "active"); None ];
                   [ Some (JStr "a806d448"); Some (JStr "Default");
                     Some (JStr "active"); Some (JNum "1643656927962") ] ] |} ).
Proof. vm_compute. reflexivity. Qed.

Example mso_body_placeholders :
  mso_body placeholders =
  "grant_type=client_credentials&client_id=<>&client_secret=<>&resource=https://management.azure.com".
Proof. reflexivity. Qed.

(** A secret holding an ampersand is read back as a fifth field. *)
Example mso_body_ampersand :
  form_fields (mso_body {| tenant_id := "t"; client_id := "a"; client_secret := "x&y=z";
                           subscription_id := ""; resource_group := "";
                           workspace_name := ""; location := "" |}) =
  [ ("grant_type", "client_credentials"); ("client_id", "a"); ("client_secret", "x");
    ("y", "z"); ("resource", "https://management.azure.com") ].
Proof. vm_compute. reflexivity. Qed.

Lemma token_exchange_shape_witness :
  sample_server (POST (mso_url sample_settings) (mso_body sample_settings))
    = Returned {| status_code := 200; content := Some (JObj token_object) |}
  ∧ headers_cell sample_runtime (JObj token_object) = Returned bearer_headers
  ∧ (notebook sample_runtime sample_server sample_settings).1 =
      [ POST (mso_url sample_settings) (mso_body sample_settings);
        GET (experiments_url sample_settings) bearer_headers ].
Proof.
  split; [reflexivity|].
  apply (token_exchange_shape sample_runtime sample_server sample_settings 200
           token_object (JStr "Bearer") (JStr "eyJ0eXAi")); reflexivity.
Defined.

Lemma experiments_request_shape_witness :
  list_experiments sample_runtime sample_server sample_settings bearer_headers =
    ( [GET (experiments_url sample_settings) bearer_headers],
      pd_DataFrame sample_runtime
        (JArr [ JObj [ ("experiment_id", JStr "ae8d6548"); ("name", JStr "gas-mixture-ppc");
                       ("lifecycle_stage", JStr "active") ];
                JObj [ ("experiment_id", JStr "a806d448"); ("name", JStr "Default");
                       ("lifecycle_stage", JStr "active");
                       ("creation_time", JNum "1643656927962") ] ]) ).
Proof.
  eapply (experiments_request_shape sample_runtime sample_server sample_settings
            bearer_headers 200 experiments_object); reflexivity.
Defined.

(** C7, as worded: the URL requested is not the base URL immediately
    followed by the suffix. *)
Lemma experiments_url_not_as_claimed :
  (list_experiments sample_runtime sample_server sample_settings bearer_headers).1
  ≠ [GET (claimed_experiments_url sample_settings) bearer_headers].
Proof.
  rewrite list_experiments_trace. intros H.
  assert (E : experiments_url sample_settings = claimed_experiments_url sample_settings)
    by congruence.
  apply (f_equal String.length) in E. vm_compute in E. discriminate E.
Qed.

Lemma experiments_lookup_unguarded_witness :
  refusing_server (GET (experiments_url sample_settings) bearer_headers)
    = Returned {| status_code := 200; content := Some (JObj []) |}
  ∧ list_experiments sample_runtime refusing_server sample_settings bearer_headers =
      ([GET (experiments_url sample_settings) bearer_headers],
       Raised (KeyError "experiments")).
Proof.
  split; [reflexivity|].
  apply (experiments_lookup_unguarded sample_runtime refusing_server sample_settings
           bearer_headers 200 []); reflexivity.
Defined.

Lemma oauth_response_unchecked_witness :
  assoc "token_type" oauth_error_object = None
  ∧ ∃ key : string,
      (key = "token_type" ∨ key = "access_token")
      ∧ assoc key oauth_error_object = None
      ∧ headers_cell sample_runtime (JObj oauth_error_object) = Raised (KeyError key)
      ∧ notebook sample_runtime refusing_server sample_settings =
          ([POST (mso_url sample_settings) (mso_body sample_settings)],
           Raised (KeyError key))
      ∧ (∀ f, notebook sample_runtime (with_status f refusing_server) sample_settings
              = notebook sample_runtime refusing_server sample_settings).
Proof.
  split; [reflexivity|].
  apply (oauth_response_unchecked sample_runtime refusing_server sample_settings
           401 oauth_error_object); [reflexivity | left; reflexivity].
Defined.

(** ** Further behaviour of the notebook *)

Fixpoint count_char (a : ascii) (s : string) : nat :=
  match s with
  | EmptyString => 0
  | String b s' => (if bool_decide (a = b) then 1 else 0) + count_char a s'
  end.

Lemma count_char_app (a : ascii) (u v : string) :
  count_char a (u +:+ v) = count_char a u + count_char a v.
Proof.
  induction u as [|b u IH]; simpl; [reflexivity|].
  rewrite IH. lia.
Qed.

Lemma split_on_length (sep : ascii) (s : string) :
  length (split_on sep s) = S (count_char sep s).
Proof.
  induction s as [|b s IH]; [reflexivity|].
  cbn [split_on count_char]. destruct (bool_decide (sep = b)).
  - cbn [length]. rewrite IH. reflexivity.
  - destruct (split_on sep s) as [|x xs]; simpl in IH; [discriminate|].
    cbn [length]. simpl. exact IH.
Qed.

Lemma mso_body_nonempty (c : settings) : mso_body c ≠ "".
Proof. discriminate. Qed.

(** X1: split at ampersands, the request body has four items plus one for
    every ampersand inside the client id or the client secret: the cell
    inserts both values unescaped. *)
Theorem mso_body_item_count (c : settings) :
  length (form_fields (mso_body c))
  = 4 + count_char "&" (client_id c) + count_char "&" (client_secret c).
Proof.
  unfold form_fields.
  destruct (mso_body c) eqn:E; [destruct (mso_body_nonempty c E)|].
  rewrite <- E. rewrite length_map, split_on_length.
  unfold mso_body. rewrite !count_char_app.
  replace (count_char "&" "grant_type=") with 0 by (vm_compute; reflexivity).
  replace (count_char "&" grant_type) with 0 by (vm_compute; reflexivity).
  replace (count_char "&" "&client_id=") with 1 by (vm_compute; reflexivity).
  replace (count_char "&" "&client_secret=") with 1 by (vm_compute; reflexivity).
  replace (count_char "&" "&resource=") with 1 by (vm_compute; reflexivity).
  replace (count_char "&" resource_scope) with 0 by (vm_compute; reflexivity).
  lia.
Qed.

(** X2: whenever the authentication step raises, because no response came
    or because its body is not JSON, the notebook ends with that exception
    after its one POST and sends nothing further. *)
Theorem authentication_failure_stops_run (rt : runtime) (srv : server) (c : settings)
  (e : exn) :
  (authenticate srv c).2 = Raised e →
  notebook rt srv c = ([POST (mso_url c) (mso_body c)], Raised e)
  ∧ (srv (POST (mso_url c) (mso_body c)) = Raised e
     ∨ (e = JSONDecodeError
        ∧ ∃ r, srv (POST (mso_url c) (mso_body c)) = Returned r ∧ content r = None)).
Proof.
  unfold notebook, authenticate, requests_post, json_method.
  destruct (srv (POST (mso_url c) (mso_body c))) as [e'|r] eqn:Hsrv.
  - cbn. intros [= ->]. split; [reflexivity | left; reflexivity].
  - cbn [bind lift app snd]. destruct (content r) as [j|] eqn:Hc.
    + cbn. discriminate.
    + cbn. intros [= <-]. split; [reflexivity|].
      right. split; [reflexivity|]. exists r. split; [reflexivity | exact Hc].
Qed.

(** X3: a token response whose JSON is not an object (a list, a string, a
    number, true, false or null) makes the headers cell raise TypeError,
    not KeyError; the notebook ends there after its one POST. *)
Theorem token_json_not_object (rt : runtime) (srv : server) (c : settings)
  (status : nat) (token_data : json) :
  srv (POST (mso_url c) (mso_body c))
    = Returned {| status_code := status; content := Some token_data |} →
  as_record token_data = None →
  headers_cell rt token_data = Raised TypeError
  ∧ notebook rt srv c = ([POST (mso_url c) (mso_body c)], Raised TypeError).
Proof.
  intros Hsrv Hrec.
  assert (Hh : headers_cell rt token_data = Raised TypeError).
  { destruct token_data; try reflexivity. discriminate Hrec. }
  split; [exact Hh|].
  unfold notebook, authenticate, requests_post. rewrite Hsrv.
  unfold json_method. cbn [content bind lift app]. rewrite Hh. reflexivity.
Qed.

(** X4: the requests of a run are the POST alone, or the POST followed by
    one GET of the experiments URL; a GET is sent only with the headers
    built from the token response, and is sent whenever those could be
    built. *)
Theorem notebook_request_discipline (rt : runtime) (srv : server) (c : settings) :
  ((notebook rt srv c).1 = [POST (mso_url c) (mso_body c)]
   ∧ ∀ token_data headers,
       (authenticate srv c).2 = Returned token_data →
       headers_cell rt token_data ≠ Returned headers)
  ∨ ∃ token_data headers,
      (authenticate srv c).2 = Returned token_data
      ∧ headers_cell rt token_data = Returned headers
      ∧ (notebook rt srv c).1
        = [POST (mso_url c) (mso_body c); GET (experiments_url c) headers].
Proof.
  unfold notebook.
  pose proof (authenticate_trace srv c) as Ha.
  destruct (authenticate srv c) as [ta [e|token_data]]; simpl in Ha; subst ta.
  - left. split; [reflexivity|]. intros ? ? [=].
  - cbn [snd].
    destruct (headers_cell rt token_data) as [e|headers] eqn:Hh.
    + left. split.
      * unfold bind, lift. rewrite Hh. reflexivity.
      * intros ? ? [= <-]. congruence.
    + right. exists token_data, headers.
      split; [reflexivity|]. split; [exact Hh|].
      unfold bind, lift. rewrite Hh.
      pose proof (list_experiments_trace rt srv c headers) as Hl.
      destruct (list_experiments rt srv c headers) as [tl r]; simpl in Hl; subst tl.
      reflexivity.
Qed.

(** X5: when the token response carries both fields and the response to
    the GET sent with the resulting headers is an object with an
    "experiments" field, the notebook ends with exactly what pd.DataFrame
    makes of that field, after one POST and one GET. *)
Theorem notebook_success (rt : runtime) (srv : server) (c : settings)
  (status status' : nat) (token data : list (string * json))
  (headers : list (string * string)) (experiments : json) :
  srv (POST (mso_url c) (mso_body c))
    = Returned {| status_code := status; content := Some (JObj token) |} →
  headers_cell rt (JObj token) = Returned headers →
  srv (GET (experiments_url c) headers)
    = Returned {| status_code := status'; content := Some (JObj data) |} →
  assoc "experiments" data = Some experiments →
  notebook rt srv c
  = ([POST (mso_url c) (mso_body c); GET (experiments_url c) headers],
     pd_DataFrame rt experiments).
Proof.
  intros Hpost Hh Hget Hexp.
  unfold notebook, authenticate, requests_post. rewrite Hpost.
  unfold json_method. cbn [content bind lift app]. rewrite Hh.
  unfold list_experiments, requests_get. rewrite Hget.
  unfold json_method, getitem. cbn [content bind lift app]. rewrite Hexp.
  cbn [bind lift app]. destruct (pd_DataFrame rt experiments); reflexivity.
Qed.

(** X6: read back by splitting at ampersands and at each item's first
    equals sign, the request body is exactly the four fields, provided
    neither the client id nor the client secret holds an ampersand. *)
Theorem mso_body_fields_read_back (c : settings) :
  occurs "&" (client_id c) = false →
  occurs "&" (client_secret c) = false →
  form_fields (mso_body c) =
  [ ("grant_type", "client_credentials"); ("client_id", client_id c);
    ("client_secret", client_secret c); ("resource", "https://management.azure.com") ].
Proof. apply mso_body_read_back. Qed.

(** A response that is no JSON at all. *)
Definition garbled_server : server :=
  fun rq => Returned {| status_code := 502; content := None |}.

(** A response that is JSON but a list. *)
Definition list_server : server :=
  fun rq => Returned {| status_code := 200; content := Some (JArr []) |}.

Lemma authentication_failure_stops_run_witness :
  (authenticate garbled_server sample_settings).2 = Raised JSONDecodeError
  ∧ notebook sample_runtime garbled_server sample_settings
    = ([POST (mso_url sample_settings) (mso_body sample_settings)], Raised JSONDecodeError).
Proof.
  split; [reflexivity|].
  apply (authentication_failure_stops_run sample_runtime garbled_server sample_settings
           JSONDecodeError). reflexivity.
Defined.

Lemma token_json_not_object_witness :
  as_record (JArr []) = None
  ∧ notebook sample_runtime list_server sample_settings
    = ([POST (mso_url sample_settings) (mso_body sample_settings)], Raised TypeError).
Proof.
  split; [reflexivity|].
  apply (token_json_not_object sample_runtime list_server sample_settings 200 (JArr []));
    reflexivity.
Defined.

Lemma notebook_success_witness :
  headers_cell sample_runtime (JObj token_object) = Returned bearer_headers
  ∧ assoc "experiments" experiments_object
    = Some (JArr [ JObj [ ("experiment_id", JStr "ae8d6548"); ("name", JStr "gas-mixture-ppc");
                          ("lifecycle_stage", JStr "active") ];
                   JObj [ ("experiment_id", JStr "a806d448"); ("name", JStr "Default");
                          ("lifecycle_stage", JStr "active");
                          ("creation_time", JNum "1643656927962") ] ])
  ∧ (notebook sample_runtime sample_server sample_settings).1
    = [ POST (mso_url sample_settings) (mso_body sample_settings);
        GET (experiments_url sample_settings) bearer_headers ].
Proof.
  split; [reflexivity|]. split; [reflexivity|].
  rewrite (notebook_success sample_runtime sample_server sample_settings 200 200
             token_object experiments_object bearer_headers _
             eq_refl eq_refl eq_refl eq_refl).
  reflexivity.
Defined.

Lemma mso_body_fields_read_back_witness :
  occurs "&" (client_secret sample_settings) = false
  ∧ form_fields (mso_body sample_settings) =
    [ ("grant_type", "client_credentials"); ("client_id", "app-1");
      ("client_secret", "s3cret"); ("resource", "https://management.azure.com") ].
Proof.
  split; [reflexivity|].
  apply (mso_body_fields_read_back sample_settings); reflexivity.
Defined.

End Tracking.

(* ===================================================================== *)
(** * Model logging notebook *)
(* ===================================================================== *)

Module Packaging.

(** ** A small Python object model *)

(** What xgboost contributes: trained state, the data it scores and the
    arrays it returns, with the two inference methods of a fitted
    classifier.  [schema] is what [infer_signature] returns. *)
Class Framework := {
  booster : Type;
  input : Type;
  output : Type;
  schema : Type;
  predict_proba_of : booster -> input -> output;
  predict_of : booster -> input -> output;
  infer_signature : input -> output -> schema
}.

(** The classes the notebook's code names.  [ModelWrapper] is defined in
    two cells; the later definition replaces the earlier one. *)
Inductive pyclass :=
| C_XGBClassifier
| C_ModelWrapper
| C_ModelWrapper_artifacts
| C_MyModel.

Inductive pyfunc := F_load_pyfunc.

Inductive value :=
| VNone
| VStr (s : string)
| VRef (l : nat)
| VClass (c : pyclass)
| VFunc (f : pyfunc).

Inductive exn :=
| NameError (name : string)
| KeyError (key : string)
| AttributeError (attr : string)
| TypeError
| NotFittedError
| XGBoostError (fname : string)
| FileNotFoundError (path : string)
| PicklingError
| ManifestMissing
| UnresolvedArtifact (name path : string)
| LoaderResolutionError (what : string)
| SignatureMismatch.

Inductive outcome (A : Type) :=
| Raised (e : exn)
| Returned (a : A).
Arguments Raised {A} e.
Arguments Returned {A} a.

Definition is_raised {A} (o : outcome A) : bool :=
  match o with Raised _ => true | Returned _ => false end.

(** Modelled from the spec: the steps of the loader of section 4.1, as a
    log: reading the manifest, checking a referenced file, deserialising
    the adapter, importing the loader module, calling its function. *)
Inductive event :=
| ReadManifest (dir : string)
| ResolveArtifact (name path : string)
| Unpickle (path : string)
| ImportModule (name : string)
| Call (module function : string) (arg : value).

(** [mlflow.pyfunc.PythonModelContext]: logical artifact name to path. *)
Record PythonModelContext := {
  artifacts : gmap string string
}.

Section Model.
Context {F : Framework}.

(** An [XGBClassifier] instance is unfitted until [fit] or [load_model];
    any other instance is its class and its attribute dictionary. *)
Inductive obj :=
| Classifier (fitted : option booster)
| Instance (c : pyclass) (attrs : gmap string value).

(** A pickled object graph, as a tree: references are followed, sharing
    is not kept (no notebook object is referenced twice).  An instance of
    an importable class is stored with a reference to its class
    ([PInstance]); an instance of a class defined in the notebook is stored
    with the class itself, that is with its methods and the values of the
    globals they read ([PByValue]). *)
Inductive pickled :=
| PNone
| PStr (s : string)
| PClass (c : pyclass)
| PFunc (f : pyfunc)
| PClassifier (fitted : option booster)
| PInstance (c : pyclass) (attrs : list (string * pickled))
| PByValue (c : pyclass) (globals : list (string * pickled))
    (attrs : list (string * pickled)).

(** Modelled from the spec: the two entry points of section 4.1, an
    adapter object embedded in the bundle or a named loader module with the
    data path it is to be given. *)
Inductive entry_point :=
| PythonModel (pickle_path : string)
| LoaderModule (module : string) (data : string).

(** Modelled from the spec: the manifest of a Model Bundle (sections 3 and
    6): the flavor, the entry point, an optional signature, the named
    artifact paths and the companion source paths, all relative to the
    bundle directory.  The loader that reads it is mlflow's, not the
    repository's. *)
Record manifest := {
  flavor : string;
  entry : entry_point;
  signature : option schema;
  artifact_paths : list (string * string);
  code : list string
}.

(** A source file is kept as the bindings its top level makes. *)
Inductive file :=
| ModelFile (b : booster)
| SourceFile (defs : list (string * value))
| PickleFile (p : pickled)
| ManifestFile (m : manifest).

(** A Python process: working directory, module namespaces, objects, the
    file system it sees, and the loader's log. *)
Record process := {
  cwd : string;
  modules : gmap string (gmap string value);
  heap : list obj;
  disk : gmap string file;
  trace : list event
}.

Definition with_modules (m : gmap string (gmap string value)) (p : process) : process :=
  {| cwd := cwd p; modules := m; heap := heap p; disk := disk p; trace := trace p |}.
Definition with_heap (h : list obj) (p : process) : process :=
  {| cwd := cwd p; modules := modules p; heap := h; disk := disk p; trace := trace p |}.
Definition with_disk (d : gmap string file) (p : process) : process :=
  {| cwd := cwd p; modules := modules p; heap := heap p; disk := d; trace := trace p |}.
Definition with_trace (t : list event) (p : process) : process :=
  {| cwd := cwd p; modules := modules p; heap := heap p; disk := disk p; trace := t |}.

(** Statements run against the process; what was done before an exception
    stays done. *)
Definition M (A : Type) : Type := process -> outcome A * process.

Definition ret {A} (a : A) : M A := fun p => (Returned a, p).
Definition raise {A} (e : exn) : M A := fun p => (Raised e, p).
Definition bind {A B} (m : M A) (k : A -> M B) : M B :=
  fun p =>
    match m p with
    | (Returned a, p') => k a p'
    | (Raised e, p') => (Raised e, p')
    end.

Notation "'let!' x ':=' m 'in' k" := (bind m (fun x => k))
  (at level 10, x name, m at level 100, k at level 200).
Notation "m ';;' k" := (bind m (fun _ => k))
  (at level 100, k at level 200, right associativity).

Definition log (e : event) : M unit :=
  fun p => (Returned tt, with_trace (trace p ++ [e]) p).

(** A global name read inside a function of [module]: the module's
    namespace decides (none of the names read is a builtin). *)
Definition load_global (module name : string) : M value :=
  fun p =>
    match modules p !! module ≫= (fun ns => ns !! name) with
    | Some v => (Returned v, p)
    | None => (Raised (NameError name), p)
    end.

Definition store_global (module name : string) (v : value) : M unit :=
  fun p =>
    let ns := default ∅ (modules p !! module) in
    (Returned tt, with_modules (<[module := <[name := v]> ns]> (modules p)) p).

Definition alloc (o : obj) : M value :=
  fun p => (Returned (VRef (length (heap p))), with_heap (heap p ++ [o]) p).

(** [v.name] and [v.name = x] on an instance of a notebook class. *)
Definition getattr (v : value) (name : string) : M value :=
  fun p =>
    match v with
    | VRef l =>
      match heap p !! l with
      | Some (Instance _ attrs) =>
        match attrs !! name with
        | Some x => (Returned x, p)
        | None => (Raised (AttributeError name), p)
        end
      | _ => (Raised (AttributeError name), p)
      end
    | _ => (Raised (AttributeError name), p)
    end.

Definition setattr (v : value) (name : string) (x : value) : M unit :=
  fun p =>
    match v with
    | VRef l =>
      match heap p !! l with
      | Some (Instance c attrs) =>
        (Returned tt, with_heap (<[l := Instance c (<[name := x]> attrs)]> (heap p)) p)
      | _ => (Raised (AttributeError name), p)
      end
    | _ => (Raised (AttributeError name), p)
    end.

(** ** Paths and files *)

Definition is_absolute (path : string) : bool :=
  match path with String "/" _ => true | _ => false end.

(** A relative path is taken from the working directory (paths are not
    normalised further). *)
Definition resolve (dir path : string) : string :=
  if is_absolute path then path else dir +:+ "/" +:+ path.

(** [os.path.abspath] *)
Definition abspath (path : string) : M string :=
  fun p => (Returned (resolve (cwd p) path), p).

Definition read_file (path : string) : M (option file) :=
  fun p => (Returned (disk p !! resolve (cwd p) path), p).

(** The file system is a map from paths to contents: directories are not
    represented, so a write never fails for want of one. *)
Definition write_file (path : string) (f : file) : M unit :=
  fun p => (Returned tt, with_disk (<[resolve (cwd p) path := f]> (disk p)) p).

(** ** xgboost, as the notebook uses it *)

(** xgboost is a dependency of the notebook, not part of it; the methods
    called are given their documented behaviour on the state kept here. *)

(** Binding a method of an [XGBClassifier] instance. *)
Definition classifier_method (method : string) (v : value) : M nat :=
  fun p =>
    match v with
    | VRef l =>
      match heap p !! l with
      | Some (Classifier _) => (Returned l, p)
      | _ => (Raised (AttributeError method), p)
      end
    | _ => (Raised (AttributeError method), p)
    end.

(** [fit] leaves the classifier holding the trained booster. *)
Definition xgb_fit (l : nat) (trained : booster) : M unit :=
  fun p => (Returned tt, with_heap (<[l := Classifier (Some trained)]> (heap p)) p).

Definition xgb_save_model (l : nat) (fname : string) : M unit :=
  fun p =>
    match heap p !! l with
    | Some (Classifier (Some b)) => write_file fname (ModelFile b) p
    | _ => (Raised NotFittedError, p)
    end.

Definition xgb_load_model (l : nat) (fname : string) : M unit :=
  fun p =>
    match disk p !! resolve (cwd p) fname with
    | Some (ModelFile b) =>
      (Returned tt, with_heap (<[l := Classifier (Some b)]> (heap p)) p)
    | _ => (Raised (XGBoostError fname), p)
    end.

(** An unfitted classifier refuses to score. *)
Definition xgb_predict_proba (l : nat) (data : input) : M output :=
  fun p =>
    match heap p !! l with
    | Some (Classifier (Some b)) => (Returned (predict_proba_of b data), p)
    | _ => (Raised NotFittedError, p)
    end.

Definition xgb_predict (l : nat) (data : input) : M output :=
  fun p =>
    match heap p !! l with
    | Some (Classifier (Some b)) => (Returned (predict_of b data), p)
    | _ => (Raised NotFittedError, p)
    end.

(** ** The notebook's classes and loader function *)

(** Cell "Logging custom models that are serializable":
    [ModelWrapper.__init__(self, model)] *)
Definition ModelWrapper__init__ (self model : value) : M unit :=
  setattr self "_model" model.

(** [ModelWrapper.predict(self, context, data)] of the same cell:
    [return self._model.predict_proba(data)] *)
Definition ModelWrapper_predict (self : value) (context : PythonModelContext)
  (data : input) : M output :=
  let! m := getattr self "_model" in
  let! l := classifier_method "predict_proba" m in
  xgb_predict_proba l data.

(** [ModelWrapper.predict_batch(self, data)]: [pass] *)
Definition ModelWrapper_predict_batch (self : value) (data : input) : M value :=
  ret VNone.

(** [loader_module.py]: [MyModel.__init__(self, model)] *)
Definition MyModel__init__ (self model : value) : M unit :=
  setattr self "_model" model.

(** [loader_module.py]: [MyModel.predict(self, data)] *)
Definition MyModel_predict (self : value) (data : input) : M output :=
  let! m := getattr self "_model" in
  let! l := classifier_method "predict_proba" m in
  xgb_predict_proba l data.

(** Calling a class.  The keyword arguments given to [XGBClassifier] are
    hyperparameters and leave no mark on what is modelled. *)
Definition instantiate (callee : value) (args : list value) : M value :=
  match callee, args with
  | VClass C_XGBClassifier, [] => alloc (Classifier None)
  | VClass C_ModelWrapper, [model] =>
    let! self := alloc (Instance C_ModelWrapper ∅) in
    ModelWrapper__init__ self model ;; ret self
  | VClass C_ModelWrapper_artifacts, [] => alloc (Instance C_ModelWrapper_artifacts ∅)
  | VClass C_MyModel, [model] =>
    let! self := alloc (Instance C_MyModel ∅) in
    MyModel__init__ self model ;; ret self
  | _, _ => raise TypeError
  end.

(** Cell "Option 1": [ModelWrapper.load_context(self, context)].
<<
    from xgboost import XGBClassifier
    self._model = XGBClassifier(use_label_encoder=False, eval_metric="logloss")
    model.load_model(context.artifacts["model"])
>>
    [XGBClassifier] is a local of the function, bound by its import;
    [model] is neither a local nor a parameter, so it is read from the
    globals the function object carries, named by [globals]. *)
Definition ModelWrapper_artifacts_load_context_in (globals : string) (self : value)
  (context : PythonModelContext) : M unit :=
  let XGBClassifier := VClass C_XGBClassifier in
  let! fresh_model := instantiate XGBClassifier [] in
  setattr self "_model" fresh_model ;;
  let! model := load_global globals "model" in
  let! l := classifier_method "load_model" model in
  match artifacts context !! "model" with
  | None => raise (KeyError "model")
  | Some path => xgb_load_model l path
  end.

(** The method of the class as the cell defines it: its globals are the
    notebook's.  A copy of the class rebuilt from a pickle carries the
    namespace rebuilt with it (see [unpickle]). *)
Definition ModelWrapper_artifacts_load_context (self : value)
  (context : PythonModelContext) : M unit :=
  ModelWrapper_artifacts_load_context_in "__main__" self context.

(** [ModelWrapper.predict] of the same cell. *)
Definition ModelWrapper_artifacts_predict (self : value) (context : PythonModelContext)
  (data : input) : M output :=
  let! m := getattr self "_model" in
  let! l := classifier_method "predict_proba" m in
  xgb_predict_proba l data.

(** [loader_module.py]: [_load_pyfunc(data_path)].
<<
    import os
    model = XGBClassifier(use_label_encoder=False, eval_metric='logloss')
    model.load_model(os.path.abspath(data_path))
    return MyModel(model)
>>
    The file imports [os] and nothing else: [XGBClassifier] and [MyModel]
    are globals of [loader_module]. *)
Definition _load_pyfunc (data_path : string) : M value :=
  let! XGBClassifier := load_global "loader_module" "XGBClassifier" in
  let! model := instantiate XGBClassifier [] in
  let! l := classifier_method "load_model" model in
  let! path := abspath data_path in
  xgb_load_model l path ;;
  let! MyModel := load_global "loader_module" "MyModel" in
  instantiate MyModel [model].

(** What [%%writefile loader_module.py] puts on disk: the two top-level
    definitions of the cell. *)
Definition loader_module_defs : list (string * value) :=
  [ ("MyModel", VClass C_MyModel); ("_load_pyfunc", VFunc F_load_pyfunc) ].

Definition loader_module_py : file := SourceFile loader_module_defs.

Definition call_function (f : value) (arg : string) : M value :=
  match f with
  | VFunc F_load_pyfunc => _load_pyfunc arg
  | _ => raise TypeError
  end.

Fixpoint assoc_lookup {A : Type} (k : string) (d : list (string * A)) : option A :=
  match d with
  | [] => None
  | (k', v) :: d' => if bool_decide (k = k') then Some v else assoc_lookup k d'
  end.

(** ** Pickling *)

(** The adapter object is serialised with its attributes and rebuilt
    without running [__init__], as pickle does.  The two [ModelWrapper]
    classes are defined in the notebook ([__main__]), which no other
    process can import, so mlflow's serialiser (cloudpickle) stores them by
    value: the methods travel with the object, together with the current
    value of every global name they read.  [XGBClassifier] and [MyModel]
    are importable and stored by reference. *)
Definition defined_in_notebook (c : pyclass) : bool :=
  match c with
  | C_ModelWrapper | C_ModelWrapper_artifacts => true
  | C_XGBClassifier | C_MyModel => false
  end.

(** The global names the methods of a class read: [load_context] of the
    second [ModelWrapper] reads [model]; no other method reads a global. *)
Definition referenced_globals (c : pyclass) : list string :=
  match c with
  | C_ModelWrapper_artifacts => ["model"]
  | _ => []
  end.

(** Those of the names that are bound, with their values. *)
Definition bound_globals (g : gmap string value) (names : list string)
  : list (string * value) :=
  omap (fun name => (fun v => (name, v)) <$> g !! name) names.

Fixpoint pickle (fuel : nat) (g : gmap string value) (h : list obj) (v : value)
  : option pickled :=
  match fuel with
  | O => None
  | S fuel' =>
    match v with
    | VNone => Some PNone
    | VStr s => Some (PStr s)
    | VClass c => Some (PClass c)
    | VFunc f => Some (PFunc f)
    | VRef l =>
      match h !! l with
      | Some (Classifier b) => Some (PClassifier b)
      | Some (Instance c attrs) =>
        attrs' ← mapM (fun kx => q ← pickle fuel' g h kx.2; Some (kx.1, q))
                      (map_to_list attrs);
        if defined_in_notebook c then
          globals ← mapM (fun kx => q ← pickle fuel' g h kx.2; Some (kx.1, q))
                         (bound_globals g (referenced_globals c));
          Some (PByValue c globals attrs')
        else Some (PInstance c attrs')
      | None => None
      end
    end
  end.

(** The namespace rebuilt for the methods of the object at [l], when its
    class came by value. *)
Definition restored_globals (l : nat) : string := "__main__@" +:+ pretty l.

Fixpoint unpickle (p : pickled) : M value :=
  let restore :=
    fix go (l : list (string * pickled)) : M (gmap string value) :=
      match l with
      | [] => ret ∅
      | (k, q) :: l' =>
        let! v := unpickle q in
        let! m := go l' in
        ret (<[k := v]> m)
      end in
  match p with
  | PNone => ret VNone
  | PStr s => ret (VStr s)
  | PClass c => ret (VClass c)
  | PFunc f => ret (VFunc f)
  | PClassifier b => alloc (Classifier b)
  | PInstance c attrs =>
    let! attrs' := restore attrs in
    alloc (Instance c attrs')
  | PByValue c globals attrs =>
    let! g := restore globals in
    let! attrs' := restore attrs in
    let! self := alloc (Instance c attrs') in
    match self with
    | VRef l =>
      (fun p => (Returned tt, with_modules (<[restored_globals l := g]> (modules p)) p)) ;;
      ret self
    | _ => ret self
    end
  end.

(** The namespace the methods of an object read their globals from: the
    one rebuilt with it, or else the notebook's. *)
Definition method_globals (self : value) : M string :=
  fun p =>
    match self with
    | VRef l =>
      match modules p !! restored_globals l with
      | Some _ => (Returned (restored_globals l), p)
      | None => (Returned "__main__", p)
      end
    | _ => (Returned "__main__", p)
    end.

(** Serialising a value of the notebook's process. *)
Definition dumps (v : value) : M pickled :=
  fun p =>
    match pickle (S (length (heap p))) (default ∅ (modules p !! "__main__")) (heap p) v with
    | Some pk => (Returned pk, p)
    | None => (Raised PicklingError, p)
    end.

(** Importing a module binds, under its name, what its top level defines;
    a module that is already imported is not executed again. *)
Definition import_module (module : string) (defs : list (string * value)) : M unit :=
  fun p =>
    match modules p !! module with
    | Some _ => (Returned tt, p)
    | None => (Returned tt, with_modules (<[module := list_to_map defs]> (modules p)) p)
    end.

(** ** Bundles: writing and loading *)

(** The layout of a bundle directory is mlflow's: the manifest is the file
    [MLmodel], artifacts and sources are copied under the names below. *)
Definition bundle_file (dir rel : string) : string := dir +:+ "/" +:+ rel.

Definition manifest_path (dir : string) : string := bundle_file dir "MLmodel".

Fixpoint copy_artifacts (dir : string) (named : list (string * string))
  : M (list (string * string)) :=
  match named with
  | [] => ret []
  | (name, src) :: rest =>
    let! f := read_file src in
    match f with
    | None => raise (FileNotFoundError src)
    | Some f =>
      let rel := "artifacts/" +:+ name in
      write_file (bundle_file dir rel) f ;;
      let! rest' := copy_artifacts dir rest in
      ret ((name, rel) :: rest')
    end
  end.

Fixpoint copy_code (dir : string) (sources : list string) : M (list string) :=
  match sources with
  | [] => ret []
  | src :: rest =>
    let! f := read_file src in
    match f with
    | None => raise (FileNotFoundError src)
    | Some f =>
      let rel := "code/" +:+ src in
      write_file (bundle_file dir rel) f ;;
      let! rest' := copy_code dir rest in
      ret (rel :: rest')
    end
  end.

(** Modelled from the spec: [mlflow.pyfunc.log_model(..., python_model=...,
    artifacts=..., signature=...)], the first construction strategy of
    section 4.1: the adapter object is serialised into the bundle, each
    named artifact file is copied into it, and the manifest records both.
    mlflow itself is not part of the repository. *)
Definition log_model_python_model (dir : string) (python_model : value)
  (named : list (string * string)) (sig : option schema) : M unit :=
  let! entries := copy_artifacts dir named in
  let! pk := dumps python_model in
  write_file (bundle_file dir "python_model.pkl") (PickleFile pk) ;;
  write_file (manifest_path dir)
    (ManifestFile {| flavor := "python_function";
                     entry := PythonModel "python_model.pkl";
                     signature := sig;
                     artifact_paths := entries;
                     code := [] |}).

(** Modelled from the spec: [mlflow.pyfunc.log_model(..., data_path=...,
    code_path=..., loader_module=..., signature=...)], the second strategy
    of section 4.1: the data file and the source files are copied into the
    bundle and the manifest names the loader module and the data path, the
    value passed as [data_path]. *)
Definition log_model_loader_module (dir : string) (data_path : string)
  (code_path : list string) (loader_module : string) (sig : option schema) : M unit :=
  let! f := read_file data_path in
  match f with
  | None => raise (FileNotFoundError data_path)
  | Some f =>
    write_file (bundle_file dir data_path) f ;;
    let! sources := copy_code dir code_path in
    write_file (manifest_path dir)
      (ManifestFile {| flavor := "python_function";
                       entry := LoaderModule loader_module data_path;
                       signature := sig;
                       artifact_paths := [];
                       code := sources |})
  end.

(** Modelled from the spec: the PredictorHandle of section 4.1, the
    adapter with its context, or whatever the loader function returned. *)
Inductive handle :=
| Adapter (self : value) (context : PythonModelContext)
| Loaded (model : value).

(** Modelled from the spec: the check of every referenced artifact file,
    in manifest order. *)
Fixpoint resolve_artifacts (dir : string) (named : list (string * string)) : M unit :=
  match named with
  | [] => ret tt
  | (name, rel) :: rest =>
    log (ResolveArtifact name rel) ;;
    let! f := read_file (bundle_file dir rel) in
    match f with
    | None => raise (UnresolvedArtifact name rel)
    | Some _ => resolve_artifacts dir rest
    end
  end.

(** Modelled from the spec: the optional lifecycle hook of section 9,
    [load_context], called by the class of the adapter; a class that does
    not define it inherits [PythonModel]'s, which does nothing. *)
Definition load_context (self : value) (context : PythonModelContext) : M unit :=
  fun p =>
    match self with
    | VRef l =>
      match heap p !! l with
      | Some (Instance C_ModelWrapper _) => (Returned tt, p)
      | Some (Instance C_ModelWrapper_artifacts _) =>
        (let! globals := method_globals self in
         ModelWrapper_artifacts_load_context_in globals self context) p
      | _ => (Raised (AttributeError "load_context"), p)
      end
    | _ => (Raised (AttributeError "load_context"), p)
    end.

Definition module_source (module : string) : string := "code/" +:+ module +:+ ".py".

(** Modelled from the spec: [load(bundlePath)] of section 4.1.  It reads
    the manifest (ManifestMissing without one), checks every referenced
    artifact file (UnresolvedArtifact at the first one absent), then
    resolves the entry point: an embedded adapter is deserialised and given
    its context; a loader module is located among the bundled sources
    (LoaderResolutionError otherwise), imported, and its function
    [_load_pyfunc] is called with the manifest's data path. *)
Definition load (dir : string) : M handle :=
  log (ReadManifest dir) ;;
  let! f := read_file (manifest_path dir) in
  match f with
  | Some (ManifestFile m) =>
    resolve_artifacts dir (artifact_paths m) ;;
    match entry m with
    | PythonModel pickle_path =>
      let! pk := read_file (bundle_file dir pickle_path) in
      match pk with
      | Some (PickleFile pk) =>
        log (Unpickle pickle_path) ;;
        let! self := unpickle pk in
        let context :=
          {| artifacts := list_to_map (prod_map id (bundle_file dir) <$> artifact_paths m) |} in
        load_context self context ;;
        ret (Adapter self context)
      | _ => raise (LoaderResolutionError pickle_path)
      end
    | LoaderModule module data =>
      log (ResolveArtifact "data" data) ;;
      let! d := read_file (bundle_file dir data) in
      match d with
      | None => raise (UnresolvedArtifact "data" data)
      | Some _ =>
        let! src := read_file (bundle_file dir (module_source module)) in
        match src with
        | Some (SourceFile defs) =>
          if bool_decide (module_source module ∈ code m) then
            log (ImportModule module) ;;
            import_module module defs ;;
            match assoc_lookup "_load_pyfunc" defs with
            | None => raise (LoaderResolutionError "_load_pyfunc")
            | Some f =>
              log (Call module "_load_pyfunc" (VStr data)) ;;
              let! model := call_function f data in
              ret (Loaded model)
            end
          else raise (LoaderResolutionError module)
        | _ => raise (LoaderResolutionError module)
        end
      end
    end
  | _ => raise ManifestMissing
  end.

(** Modelled from the spec: [predict(handle, input)] of section 4.1: the
    adapter's [predict(context, data)], or the loaded object's
    [predict(data)].  The declared signature is not enforced: section 9
    leaves that open. *)
Definition predict (h : handle) (data : input) : M output :=
  fun p =>
    match h with
    | Adapter (VRef l as self) context =>
      match heap p !! l with
      | Some (Instance C_ModelWrapper _) => ModelWrapper_predict self context data p
      | Some (Instance C_ModelWrapper_artifacts _) =>
        ModelWrapper_artifacts_predict self context data p
      | _ => (Raised (AttributeError "predict"), p)
      end
    | Loaded (VRef l as model) =>
      match heap p !! l with
      | Some (Instance C_MyModel _) => MyModel_predict model data p
      | Some (Classifier _) => xgb_predict l data p
      | Some (Instance _ _) => (Raised TypeError, p)
      | None => (Raised (AttributeError "predict"), p)
      end
    | _ => (Raised (AttributeError "predict"), p)
    end.

(** Whether an object has a [predict] method: every class modelled here
    defines one, so any live object does. *)
Definition exposes_predict (h : list obj) (v : value) : bool :=
  match v with
  | VRef l => match h !! l with Some _ => true | None => false end
  | _ => false
  end.

(** ** The notebook's logging cells *)

(** The part the three cells share: import, construct, fit, score.
    [trained] is what fitting on the training data yields; the value
    returned is [y_probs].  The run opened by [mlflow.start_run] and what
    [autolog] and [log_metric] record in it are mlflow's and are not
    represented: only the model's own state is. *)
Definition train (trained : booster) (X_test : input) : M output :=
  store_global "__main__" "XGBClassifier" (VClass C_XGBClassifier) ;;
  let! XGBClassifier := load_global "__main__" "XGBClassifier" in
  let! model := instantiate XGBClassifier [] in
  store_global "__main__" "model" model ;;
  let! model := load_global "__main__" "model" in
  let! l := classifier_method "fit" model in
  xgb_fit l trained ;;
  let! model := load_global "__main__" "model" in
  let! l := classifier_method "predict_proba" model in
  xgb_predict_proba l X_test.

(** [model_path = "xgb.model"]; [model.save_model(model_path)] *)
Definition save_trained (model_path : string) : M unit :=
  let! model := load_global "__main__" "model" in
  let! l := classifier_method "save_model" model in
  xgb_save_model l model_path.

(** Where [log_model("classifier", ...)] writes, given the run's artifact
    directory. *)
Definition classifier_bundle (run_dir : string) : string := bundle_file run_dir "classifier".

(** Cell [mlflow.pyfunc.log_model("classifier",
    python_model=ModelWrapper(model), signature=signature)], after the cell
    defining the first [ModelWrapper]. *)
Definition log_serializable (run_dir : string) (trained : booster) (X_test : input)
  : M output :=
  store_global "__main__" "ModelWrapper" (VClass C_ModelWrapper) ;;
  let! y_probs := train trained X_test in
  let! ModelWrapper := load_global "__main__" "ModelWrapper" in
  let! model := load_global "__main__" "model" in
  let! wrapper := instantiate ModelWrapper [model] in
  log_model_python_model (classifier_bundle run_dir) wrapper []
    (Some (infer_signature X_test y_probs)) ;;
  ret y_probs.

(** Cell [mlflow.pyfunc.log_model("classifier", python_model=ModelWrapper(),
    artifacts={"model": model_path}, signature=signature)], after the cell
    defining the second [ModelWrapper]. *)
Definition log_with_artifacts (run_dir : string) (trained : booster) (X_test : input)
  : M output :=
  store_global "__main__" "ModelWrapper" (VClass C_ModelWrapper_artifacts) ;;
  let! y_probs := train trained X_test in
  let model_path := "xgb.model" in
  save_trained model_path ;;
  let! ModelWrapper := load_global "__main__" "ModelWrapper" in
  let! wrapper := instantiate ModelWrapper [] in
  log_model_python_model (classifier_bundle run_dir) wrapper [("model", model_path)]
    (Some (infer_signature X_test y_probs)) ;;
  ret y_probs.

(** Cell [mlflow.pyfunc.log_model("classifier", data_path=model_path,
    code_path=["loader_module.py"], loader_module="loader_module",
    signature=signature)], after the [%%writefile loader_module.py] cell. *)
Definition log_with_loader_module (run_dir : string) (trained : booster) (X_test : input)
  : M output :=
  write_file "loader_module.py" loader_module_py ;;
  let! y_probs := train trained X_test in
  let model_path := "xgb.model" in
  save_trained model_path ;;
  log_model_loader_module (classifier_bundle run_dir) model_path
    ["loader_module.py"] "loader_module" (Some (infer_signature X_test y_probs)) ;;
  ret y_probs.

(** ** Processes *)

(** A process that has run nothing yet. *)
Definition new_process (wd : string) (files : gmap string file) : process :=
  {| cwd := wd; modules := {["__main__" := ∅]}; heap := []; disk := files; trace := [] |}.

(** Loading a bundle and scoring one input. *)
Definition serve (dir : string) (data : input) : M output :=
  let! h := load dir in
  predict h data.

(** Logging in one process, then serving from another that shares nothing
    with it but the files. *)
Definition log_then_serve_afresh (log_cell : M output) (wd wd' : string)
  (dir : string) (data : input) : outcome output * outcome output :=
  let '(logged, p) := log_cell (new_process wd ∅) in
  (logged, (serve dir data (new_process wd' (disk p))).1).

(** Logging and serving in the one process. *)
Definition log_then_serve_in_place (log_cell : M output) (wd : string)
  (dir : string) (data : input) : outcome output * outcome output :=
  let '(logged, p) := log_cell (new_process wd ∅) in
  (logged, (serve dir data p).1).

(** Logging in one process, then loading in another. *)
Definition log_then_load_afresh (log_cell : M output) (wd wd' : string) (dir : string)
  : outcome handle * process :=
  let '(_, p) := log_cell (new_process wd ∅) in
  load dir (new_process wd' (disk p)).

(** The files a logging cell leaves behind. *)
Definition logged_files (log_cell : M output) (wd : string) : gmap string file :=
  disk (log_cell (new_process wd ∅)).2.

(** The directories of the runs below. *)
Definition notebook_dir : string := "/home/nb".
Definition serving_dir : string := "/srv".
Definition run_dir : string := "/mlruns/1".

(** ** What the loader function reads *)

(** [_load_pyfunc] stops at its first statement whenever [loader_module]
    does not bind [XGBClassifier]; nothing is created, nothing is read. *)
Lemma _load_pyfunc_unbound_class (p : process) (data_path : string) :
  modules p !! "loader_module" ≫= (fun ns => ns !! "XGBClassifier") = None →
  _load_pyfunc data_path p = (Raised (NameError "XGBClassifier"), p).
Proof.
  intros H. unfold _load_pyfunc, bind, load_global. rewrite H. reflexivity.
Qed.

(** Importing the file as written leaves [XGBClassifier] unbound. *)
Lemma loader_module_py_binds (p : process) :
  modules p !! "loader_module" = None →
  let p' := (import_module "loader_module" loader_module_defs p).2 in
  modules p' !! "loader_module" ≫= (fun ns => ns !! "XGBClassifier") = None
  ∧ modules p' !! "loader_module" ≫= (fun ns => ns !! "MyModel") = Some (VClass C_MyModel)
  ∧ modules p' !! "loader_module" ≫= (fun ns => ns !! "_load_pyfunc")
      = Some (VFunc F_load_pyfunc).
Proof.
  intros Hnew. unfold import_module. rewrite Hnew.
  cbn [snd modules with_modules]. rewrite !lookup_insert_eq.
  repeat split; vm_compute; reflexivity.
Qed.

(** With the class bound, as an import at the top of the file would do,
    the function does what its body says: it loads the file at the given
    path and returns a [MyModel] that scores with the stored booster. *)
Lemma _load_pyfunc_bound_class (p : process) (ns : gmap string value)
  (data_path : string) (b : booster) (x : input) :
  modules p !! "loader_module" = Some ns →
  ns !! "XGBClassifier" = Some (VClass C_XGBClassifier) →
  ns !! "MyModel" = Some (VClass C_MyModel) →
  disk p !! resolve (cwd p) (resolve (cwd p) data_path) = Some (ModelFile b) →
  ∃ p', _load_pyfunc data_path p = (Returned (VRef (S (length (heap p)))), p')
        ∧ exposes_predict (heap p') (VRef (S (length (heap p)))) = true
        ∧ predict (Loaded (VRef (S (length (heap p))))) x p'
            = (Returned (predict_proba_of b x), p').
Proof.
  intros Hns Hcls Hmy Hfile.
  unfold _load_pyfunc, bind, load_global. rewrite Hns. simpl. rewrite Hcls.
  unfold instantiate at 1. unfold alloc at 1.
  set (n := length (heap p)).
  assert (Hn : (heap p ++ [Classifier None]) !! n = Some (Classifier None)).
  { subst n. rewrite lookup_app_r by reflexivity.
    replace (length (heap p) - length (heap p)) with 0 by lia. reflexivity. }
  unfold classifier_method. cbn [heap with_heap]. rewrite Hn.
  unfold abspath, xgb_load_model. cbn [cwd disk heap with_heap modules]. rewrite Hfile.
  cbn [cwd disk heap with_heap modules]. rewrite Hns. simpl. rewrite Hmy.
  unfold instantiate, bind, alloc, MyModel__init__, setattr, ret.
  cbn [cwd disk heap with_heap modules].
  set (h1 := <[n := Classifier (Some b)]> (heap p ++ [Classifier None])).
  assert (Hlen1 : length h1 = S n).
  { subst h1. rewrite length_insert, length_app. simpl. subst n. lia. }
  rewrite Hlen1.
  assert (Hnew : (h1 ++ [Instance C_MyModel ∅]) !! S n = Some (Instance C_MyModel ∅)).
  { rewrite lookup_app_r by lia. rewrite Hlen1.
    replace (S n - S n) with 0 by lia. reflexivity. }
  rewrite Hnew.
  eexists. split; [reflexivity|].
  set (h2 := <[S n := _]> (h1 ++ [Instance C_MyModel ∅])).
  assert (Hself : h2 !! S n = Some (Instance C_MyModel (<["_model" := VRef n]> ∅))).
  { subst h2. apply list_lookup_insert_eq. rewrite length_app, Hlen1. simpl. lia. }
  assert (Hmodel : h2 !! n = Some (Classifier (Some b))).
  { subst h2. rewrite list_lookup_insert_ne by lia.
    rewrite lookup_app_l by lia. subst h1.
    apply list_lookup_insert_eq. rewrite length_app. simpl. subst n. lia. }
  split.
  - unfold exposes_predict. cbn [heap with_heap]. rewrite Hself. reflexivity.
  - unfold predict. cbn [heap with_heap]. rewrite Hself.
    unfold MyModel_predict, bind, getattr. cbn [heap with_heap]. rewrite Hself.
    rewrite lookup_insert_eq.
    unfold classifier_method. cbn [heap with_heap]. rewrite Hmodel.
    unfold xgb_predict_proba. cbn [heap with_heap]. rewrite Hmodel. reflexivity.
Qed.

(** ** What the artifacts adapter loads *)

(** The global [model], when bound to an object, is bound to one that
    exists. *)
Definition model_bound_inside (p : process) : Prop :=
  ∀ l, modules p !! "__main__" ≫= (fun ns => ns !! "model") = Some (VRef l) →
       l < length (heap p).


(** Whatever [model] is bound to, the classifier [predict] reads is the
    one [load_context] created and never loaded: loading then scoring
    raises. *)
Lemma artifacts_adapter_never_scores (p : process) (self : value)
  (context : PythonModelContext) (x : input) :
  model_bound_inside p →
  is_raised
    ((ModelWrapper_artifacts_load_context self context ;;
      ModelWrapper_artifacts_predict self context x) p).1 = true.
Proof.
  intros Hwf.
  unfold ModelWrapper_artifacts_load_context, ModelWrapper_artifacts_load_context_in,
    bind, instantiate, alloc, setattr.
  cbn [heap with_heap].
  set (n := length (heap p)).
  set (h1 := heap p ++ [Classifier None]).
  assert (Hn1 : h1 !! n = Some (Classifier None)).
  { subst h1 n. rewrite lookup_app_r by reflexivity.
    replace (length (heap p) - length (heap p)) with 0 by lia. reflexivity. }
  destruct self as [| |ls| |]; try reflexivity.
  destruct (h1 !! ls) as [[?|c attrs]|] eqn:Hls; try reflexivity.
  assert (Hne : ls ≠ n) by (intros ->; congruence).
  set (h2 := <[ls := Instance c (<["_model" := VRef n]> attrs)]> h1).
  assert (Hls2 : h2 !! ls = Some (Instance c (<["_model" := VRef n]> attrs))).
  { subst h2. apply list_lookup_insert_eq. eapply lookup_lt_Some; eassumption. }
  assert (Hn2 : h2 !! n = Some (Classifier None)).
  { subst h2. rewrite list_lookup_insert_ne by assumption. exact Hn1. }
  unfold load_global. cbn [modules with_heap].
  destruct (modules p !! "__main__" ≫= _) as [model|] eqn:Hmodel; [|reflexivity].
  unfold classifier_method. cbn [heap with_heap].
  destruct model as [| |lm| |]; try reflexivity.
  destruct (h2 !! lm) as [[bm|? ?]|] eqn:Hlm; try reflexivity.
  assert (Hlm_lt : lm < n) by (apply Hwf; exact Hmodel).
  destruct (artifacts context !! "model") as [path|]; [|reflexivity].
  unfold xgb_load_model. cbn [cwd disk heap with_heap].
  destruct (disk p !! _) as [[b| | |]|]; try reflexivity.
  unfold ModelWrapper_artifacts_predict, bind, getattr. cbn [heap with_heap].
  rewrite list_lookup_insert_ne by (intros ->; congruence).
  rewrite Hls2, lookup_insert_eq.
  unfold classifier_method. cbn [heap with_heap].
  rewrite list_lookup_insert_ne by lia. rewrite Hn2.
  unfold xgb_predict_proba. cbn [heap with_heap].
  rewrite list_lookup_insert_ne by lia. rewrite Hn2. reflexivity.
Qed.

(** ** The loader's failures *)

Definition present (p : process) (dir : string) (nr : string * string) : Prop :=
  is_Some (disk p !! resolve (cwd p) (bundle_file dir nr.2)).

Definition absent (p : process) (dir : string) (nr : string * string) : Prop :=
  disk p !! resolve (cwd p) (bundle_file dir nr.2) = None.

Definition probes (named : list (string * string)) : list event :=
  (fun nr => ResolveArtifact nr.1 nr.2) <$> named.

Lemma with_trace_with_trace (t t' : list event) (p : process) :
  with_trace t (with_trace t' p) = with_trace t p.
Proof. reflexivity. Qed.

(** Artifacts are checked in manifest order, each once, up to the first
    one whose file is absent. *)
Lemma resolve_artifacts_stops (dir : string) (named : list (string * string)) :
  ∀ p : process,
    (∃ nr, nr ∈ named ∧ absent p dir nr) →
    ∃ pre name rel post,
      named = pre ++ (name, rel) :: post
      ∧ Forall (present p dir) pre
      ∧ absent p dir (name, rel)
      ∧ resolve_artifacts dir named p
        = (Raised (UnresolvedArtifact name rel),
           with_trace (trace p ++ probes (pre ++ [(name, rel)])) p).
Proof.
  induction named as [|[n r] rest IH]; intros p (nr & Hin & Habs).
  - inversion Hin.
  - cbn [resolve_artifacts]. unfold bind at 1. unfold log at 1.
    unfold bind at 1. unfold read_file at 1. cbn [cwd disk with_trace].
    destruct (disk p !! resolve (cwd p) (bundle_file dir r)) as [f|] eqn:Hr.
    + assert (Hrest : ∃ nr', nr' ∈ rest ∧ absent p dir nr').
      { apply elem_of_cons in Hin as [->|Hin].
        - unfold absent in Habs. simpl in Habs. congruence.
        - eauto. }
      destruct (IH (with_trace (trace p ++ [ResolveArtifact n r]) p) Hrest)
        as (pre & name & rel & post & -> & Hpre & Hmiss & Heq).
      exists ((n, r) :: pre), name, rel, post.
      split; [reflexivity|]. split.
      { constructor; [unfold present; simpl; rewrite Hr; eauto | exact Hpre]. }
      split; [exact Hmiss|].
      rewrite Heq, with_trace_with_trace. cbn [trace with_trace].
      rewrite <- app_assoc. reflexivity.
    + exists [], n, r, rest.
      split; [reflexivity|]. split; [constructor|]. split; [exact Hr|].
      reflexivity.
Qed.

(** The file at the manifest's place, when there is one, is a manifest. *)
Definition has_manifest (p : process) (dir : string) : Prop :=
  ∃ m, disk p !! resolve (cwd p) (manifest_path dir) = Some (ManifestFile m).

Lemma load_manifest_missing (p : process) (dir : string) :
  ¬ has_manifest p dir →
  load dir p = (Raised ManifestMissing, with_trace (trace p ++ [ReadManifest dir]) p).
Proof.
  intros H. unfold load, bind, log, read_file. cbn [cwd disk with_trace].
  destruct (disk p !! _) as [[| | |m]|] eqn:E; try reflexivity.
  exfalso. apply H. exists m. exact E.
Qed.

Lemma load_unresolved_artifact (p : process) (dir : string) (m : manifest) :
  disk p !! resolve (cwd p) (manifest_path dir) = Some (ManifestFile m) →
  (∃ nr, nr ∈ artifact_paths m ∧ absent p dir nr) →
  ∃ pre name rel post,
    artifact_paths m = pre ++ (name, rel) :: post
    ∧ Forall (present p dir) pre
    ∧ absent p dir (name, rel)
    ∧ load dir p
      = (Raised (UnresolvedArtifact name rel),
         with_trace (trace p ++ ReadManifest dir :: probes (pre ++ [(name, rel)])) p).
Proof.
  intros Hm Hmissing.
  destruct (resolve_artifacts_stops dir (artifact_paths m)
              (with_trace (trace p ++ [ReadManifest dir]) p) Hmissing)
    as (pre & name & rel & post & Hsplit & Hpre & Habs & Heq).
  exists pre, name, rel, post. repeat split; try assumption.
  unfold load. unfold bind at 1. unfold log at 1.
  unfold bind at 1. unfold read_file at 1. cbn [cwd disk with_trace].
  rewrite Hm. unfold bind at 1. rewrite Heq, with_trace_with_trace.
  cbn [trace with_trace]. rewrite <- app_assoc. reflexivity.
Qed.

(** C5: a bundle directory without a manifest makes [load] fail with
    ManifestMissing, the process left as it was but for the one recorded
    manifest read; a manifest naming an artifact whose file is absent makes
    [load] fail with UnresolvedArtifact at the first such artifact, after
    one check of each artifact before it, with nothing deserialised,
    imported or called, so no handle exists for [predict]; each failure is
    returned on the first attempt. *)
Theorem loader_error_taxonomy (p : process) (dir : string) :
  (¬ has_manifest p dir →
   load dir p = (Raised ManifestMissing, with_trace (trace p ++ [ReadManifest dir]) p))
  ∧ (∀ m : manifest,
       disk p !! resolve (cwd p) (manifest_path dir) = Some (ManifestFile m) →
       (∃ nr, nr ∈ artifact_paths m ∧ absent p dir nr) →
       ∃ pre name rel post,
         artifact_paths m = pre ++ (name, rel) :: post
         ∧ Forall (present p dir) pre
         ∧ absent p dir (name, rel)
         ∧ load dir p
           = (Raised (UnresolvedArtifact name rel),
              with_trace (trace p ++ ReadManifest dir :: probes (pre ++ [(name, rel)])) p)
         ∧ ∀ x : input, (serve dir x p).1 = Raised (UnresolvedArtifact name rel)).
Proof.
  split; [apply load_manifest_missing|].
  intros m Hm Hmissing.
  destruct (load_unresolved_artifact p dir m Hm Hmissing)
    as (pre & name & rel & post & Hsplit & Hpre & Habs & Heq).
  exists pre, name, rel, post. repeat split; try assumption.
  intros x. unfold serve, bind. rewrite Heq. reflexivity.
Qed.

(** ** Bundles that cannot be served *)

Lemma resolve_artifacts_all_present (dir : string) (named : list (string * string)) :
  ∀ p : process,
    Forall (present p dir) named →
    resolve_artifacts dir named p = (Returned tt, with_trace (trace p ++ probes named) p).
Proof.
  induction named as [|[n r] rest IH]; intros p Hall.
  - cbn [resolve_artifacts probes fmap list_fmap]. unfold ret.
    rewrite app_nil_r. destruct p; reflexivity.
  - apply Forall_cons in Hall as [[f Hf] Hrest]. simpl in Hf.
    cbn [resolve_artifacts]. unfold bind at 1. unfold log at 1.
    unfold bind at 1. unfold read_file at 1. cbn [cwd disk with_trace].
    rewrite Hf.
    rewrite (IH (with_trace (trace p ++ [ResolveArtifact n r]) p)) by exact Hrest.
    rewrite with_trace_with_trace. cbn [trace with_trace].
    rewrite <- app_assoc. reflexivity.
Qed.

Lemma import_module_returns (module : string) (defs : list (string * value))
  (p : process) :
  ∃ p', import_module module defs p = (Returned tt, p')
        ∧ modules p' !! module = Some (default (list_to_map defs) (modules p !! module))
        ∧ p' = with_modules (modules p') p.
Proof.
  unfold import_module. destruct (modules p !! module) as [ns|] eqn:E.
  - exists p. split; [reflexivity|]. split; [exact E|]. destruct p; reflexivity.
  - eexists. split; [reflexivity|]. cbn [modules with_modules].
    split; [apply lookup_insert_eq | reflexivity].
Qed.

(** A bundle whose entry point is [loader_module.py] as written cannot be
    loaded, from any directory, in any process that has not imported a
    [loader_module] of its own binding [XGBClassifier]. *)
Lemma loader_module_bundle_never_loads (p : process) (dir : string) (m : manifest)
  (data : string) (f : file) :
  disk p !! resolve (cwd p) (manifest_path dir) = Some (ManifestFile m) →
  Forall (present p dir) (artifact_paths m) →
  entry m = LoaderModule "loader_module" data →
  disk p !! resolve (cwd p) (bundle_file dir data) = Some f →
  disk p !! resolve (cwd p) (bundle_file dir (module_source "loader_module"))
    = Some loader_module_py →
  module_source "loader_module" ∈ code m →
  modules p !! "loader_module" ≫= (fun ns => ns !! "XGBClassifier") = None →
  (load dir p).1 = Raised (NameError "XGBClassifier").
Proof.
  intros Hm Hart Hentry Hdata Hsrc Hcode Hunbound.
  unfold load. unfold bind at 1. unfold log at 1.
  unfold bind at 1. unfold read_file at 1. cbn [cwd disk with_trace].
  rewrite Hm. unfold bind at 1.
  rewrite resolve_artifacts_all_present by exact Hart.
  rewrite Hentry. unfold bind at 1. unfold log at 1.
  unfold bind at 1. unfold read_file at 1. cbn [cwd disk with_trace].
  rewrite Hdata.
  unfold bind at 1. unfold read_file at 1. cbn [cwd disk with_trace].
  rewrite Hsrc. unfold loader_module_py.
  rewrite bool_decide_eq_true_2 by exact Hcode.
  unfold bind at 1. unfold log at 1.
  unfold bind at 1.
  match goal with |- context [import_module ?a ?b ?q] =>
    destruct (import_module_returns a b q) as (p' & -> & Hmod & _);
    cbn [modules with_trace] in Hmod
  end.
  change (assoc_lookup "_load_pyfunc" loader_module_defs) with (Some (VFunc F_load_pyfunc)).
  unfold bind at 1. unfold log at 1. unfold bind at 1.
  cbn [call_function].
  rewrite _load_pyfunc_unbound_class; [reflexivity|].
  cbn [modules with_modules with_trace]. rewrite Hmod.
  destruct (modules p !! "loader_module") as [ns|]; [exact Hunbound|].
  vm_compute. reflexivity.
Qed.

(** What the artifacts cell pickles is rebuilt as three things: the copy
    of the global [model], the wrapper, and the namespace of its methods
    with [model] bound to that copy. *)
Lemma unpickle_artifacts_adapter (p : process) (held : option booster) :
  unpickle (PByValue C_ModelWrapper_artifacts [("model", PClassifier held)] []) p
  = (Returned (VRef (S (length (heap p)))),
     with_modules
       (<[restored_globals (S (length (heap p))) := <["model" := VRef (length (heap p))]> ∅]>
          (modules p))
       (with_heap ((heap p ++ [Classifier held]) ++ [Instance C_ModelWrapper_artifacts ∅]) p)).
Proof.
  cbn [unpickle]. unfold bind, alloc, ret.
  cbn [heap with_heap modules with_modules].
  rewrite length_app. cbn [length].
  replace (length (heap p) + 1) with (S (length (heap p))) by lia.
  reflexivity.
Qed.

(** Whichever namespace the method reads [model] from, once [load_context]
    has returned the wrapper cannot score. *)
Lemma load_context_in_then_not_fitted (globals : string) (p p' : process)
  (self : value) (context : PythonModelContext) (x : input) (u : unit) :
  (∀ l, modules p !! globals ≫= (fun ns => ns !! "model") = Some (VRef l) →
        l < length (heap p)) →
  ModelWrapper_artifacts_load_context_in globals self context p = (Returned u, p') →
  ModelWrapper_artifacts_predict self context x p' = (Raised NotFittedError, p').
Proof.
  intros Hwf.
  unfold ModelWrapper_artifacts_load_context_in, bind, instantiate, alloc, setattr.
  cbn [heap with_heap].
  set (n := length (heap p)).
  set (h1 := heap p ++ [Classifier None]).
  assert (Hn1 : h1 !! n = Some (Classifier None)).
  { subst h1 n. rewrite lookup_app_r by reflexivity.
    replace (length (heap p) - length (heap p)) with 0 by lia. reflexivity. }
  destruct self as [| |ls| |]; try discriminate.
  destruct (h1 !! ls) as [[?|c attrs]|] eqn:Hls; try discriminate.
  assert (Hne : ls ≠ n) by (intros ->; congruence).
  set (h2 := <[ls := Instance c (<["_model" := VRef n]> attrs)]> h1).
  assert (Hls2 : h2 !! ls = Some (Instance c (<["_model" := VRef n]> attrs))).
  { subst h2. apply list_lookup_insert_eq. eapply lookup_lt_Some; eassumption. }
  assert (Hn2 : h2 !! n = Some (Classifier None)).
  { subst h2. rewrite list_lookup_insert_ne by assumption. exact Hn1. }
  unfold load_global. cbn [modules with_heap].
  destruct (modules p !! globals ≫= _) as [model|] eqn:Hmodel; [|discriminate].
  unfold classifier_method. cbn [heap with_heap].
  destruct model as [| |lm| |]; try discriminate.
  destruct (h2 !! lm) as [[bm|? ?]|] eqn:Hlm; try discriminate.
  assert (Hlm_lt : lm < n) by (apply Hwf; reflexivity).
  destruct (artifacts context !! "model") as [path|]; [|discriminate].
  unfold xgb_load_model. cbn [cwd disk heap with_heap].
  destruct (disk p !! _) as [[b| | |]|]; try discriminate.
  intros [= _ <-].
  unfold ModelWrapper_artifacts_predict, bind, getattr. cbn [heap with_heap].
  rewrite list_lookup_insert_ne by (intros ->; congruence).
  rewrite Hls2, lookup_insert_eq.
  unfold classifier_method. cbn [heap with_heap].
  rewrite list_lookup_insert_ne by lia. rewrite Hn2.
  unfold xgb_predict_proba. cbn [heap with_heap].
  rewrite list_lookup_insert_ne by lia. rewrite Hn2. reflexivity.
Qed.

(** A bundle whose adapter is the second [ModelWrapper], pickled as the
    artifacts cell pickles it, cannot be served from any directory in any
    process: loading it, or else scoring with it, raises. *)
Lemma artifacts_bundle_never_serves (p : process) (dir : string) (m : manifest)
  (pickle_path : string) (held : option booster) (x : input) :
  disk p !! resolve (cwd p) (manifest_path dir) = Some (ManifestFile m) →
  Forall (present p dir) (artifact_paths m) →
  entry m = PythonModel pickle_path →
  disk p !! resolve (cwd p) (bundle_file dir pickle_path)
    = Some (PickleFile
              (PByValue C_ModelWrapper_artifacts [("model", PClassifier held)] [])) →
  is_raised (serve dir x p).1 = true.
Proof.
  intros Hm Hart Hentry Hpk.
  unfold serve. unfold bind at 1.
  unfold load. unfold bind at 1. unfold log at 1.
  unfold bind at 1. unfold read_file at 1. cbn [cwd disk with_trace].
  rewrite Hm. unfold bind at 1.
  rewrite resolve_artifacts_all_present by exact Hart.
  rewrite Hentry.
  unfold bind at 1. unfold read_file at 1. cbn [cwd disk with_trace].
  rewrite Hpk.
  unfold bind at 1. unfold log at 1.
  unfold bind at 1. rewrite unpickle_artifacts_adapter.
  cbn [heap modules with_heap with_modules with_trace].
  set (n := length (heap p)).
  set (context := {| artifacts := _ |}).
  set (p3 := with_modules _ _).
  assert (Hself : heap p3 !! S n = Some (Instance C_ModelWrapper_artifacts ∅)).
  { subst p3 n. cbn [heap with_heap with_modules].
    rewrite lookup_app_r by (rewrite length_app; simpl; lia).
    rewrite length_app. simpl.
    replace (S (length (heap p)) - (length (heap p) + 1)) with 0 by lia. reflexivity. }
  assert (Hg : modules p3 !! restored_globals (S n) = Some (<["model" := VRef n]> ∅)).
  { subst p3. cbn [modules with_modules]. apply lookup_insert_eq. }
  assert (Hwf3 : ∀ l, modules p3 !! restored_globals (S n)
                        ≫= (fun ns => ns !! "model") = Some (VRef l) →
                      l < length (heap p3)).
  { intros l. rewrite Hg. cbn [mbind option_bind]. rewrite lookup_insert_eq.
    intros [= <-]. subst p3 n. cbn [heap with_heap with_modules].
    rewrite !length_app. simpl. lia. }
  unfold bind at 1. unfold load_context at 1. rewrite Hself.
  unfold bind at 1. unfold method_globals at 1. rewrite Hg.
  destruct (ModelWrapper_artifacts_load_context_in (restored_globals (S n))
              (VRef (S n)) context p3) as [[e|u] p4] eqn:Hload; [reflexivity|].
  pose proof (load_context_in_then_not_fitted _ _ _ _ _ x _ Hwf3 Hload) as Hnever.
  unfold ret at 1. unfold predict.
  destruct (heap p4 !! S n) as [[?|[] ?]|]; try reflexivity.
  - change (ModelWrapper_predict (VRef (S n)) context x p4)
      with (ModelWrapper_artifacts_predict (VRef (S n)) context x p4).
    rewrite Hnever. reflexivity.
  - rewrite Hnever. reflexivity.
Qed.

(** ** The three bundles, logged and loaded *)

(** C1, at the notebook's artifacts bundle and its loader-module bundle,
    each logged and then loaded in a process that shares only the files.
    The artifacts bundle carries, beside the artifact file, the logging
    process's global [model], pickled with the class whose [load_context]
    reads it; loading returns, with the artifact loaded into the rebuilt
    copy of that global and the wrapper's own [_model] never fitted, so
    the predictor raises NotFittedError for every input.  The
    loader-module bundle does not load: [_load_pyfunc] raises NameError
    for [XGBClassifier]. *)
Theorem roundtrip_afresh_fails (trained : booster) (X_test : input) :
  let bundle := classifier_bundle run_dir in
  let artifacts_run :=
    log_then_load_afresh (log_with_artifacts run_dir trained X_test)
      notebook_dir serving_dir bundle in
  let loader_run :=
    log_then_load_afresh (log_with_loader_module run_dir trained X_test)
      notebook_dir serving_dir bundle in
  logged_files (log_with_artifacts run_dir trained X_test) notebook_dir
    !! bundle_file bundle "python_model.pkl"
  = Some (PickleFile
            (PByValue C_ModelWrapper_artifacts
               [("model", PClassifier (Some trained))] []))
  ∧ heap artifacts_run.2
    = [ Classifier (Some trained);
        Instance C_ModelWrapper_artifacts (<["_model" := VRef 2]> ∅);
        Classifier None ]
  ∧ (∀ x : input,
       match artifacts_run.1 with
       | Returned h => (predict h x artifacts_run.2).1 = Raised NotFittedError
       | Raised _ => False
       end)
  ∧ loader_run.1 = Raised (NameError "XGBClassifier").
Proof.
  split; [vm_compute; reflexivity|].
  split; [vm_compute; reflexivity|].
  split; [intros x; vm_compute; reflexivity|].
  vm_compute; reflexivity.
Qed.

(** C2, bundle by bundle, at the input scored when logging: the
    direct-reference bundle reproduces [y_probs]; the artifacts bundle
    raises NotFittedError at [predict], in another process as in the
    logging process; the loader-module bundle raises NameError in either. *)
Theorem reproduction_by_bundle (trained : booster) (X_test : input) :
  let y_probs := predict_proba_of trained X_test in
  let bundle := classifier_bundle run_dir in
  log_then_serve_afresh (log_serializable run_dir trained X_test)
    notebook_dir serving_dir bundle X_test
  = (Returned y_probs, Returned y_probs)
  ∧ log_then_serve_afresh (log_with_artifacts run_dir trained X_test)
      notebook_dir serving_dir bundle X_test
    = (Returned y_probs, Raised NotFittedError)
  ∧ log_then_serve_in_place (log_with_artifacts run_dir trained X_test)
      notebook_dir bundle X_test
    = (Returned y_probs, Raised NotFittedError)
  ∧ log_then_serve_afresh (log_with_loader_module run_dir trained X_test)
      notebook_dir serving_dir bundle X_test
    = (Returned y_probs, Raised (NameError "XGBClassifier"))
  ∧ log_then_serve_in_place (log_with_loader_module run_dir trained X_test)
      notebook_dir bundle X_test
    = (Returned y_probs, Raised (NameError "XGBClassifier")).
Proof. repeat split; vm_compute; reflexivity. Qed.

(** C3, at the bundle logged with data_path "xgb.model", code_path
    ["loader_module.py"] and loader_module "loader_module": loading checks
    the data file, imports [loader_module] and calls its [_load_pyfunc]
    once, with the path "xgb.model"; the call raises NameError for
    [XGBClassifier], so no object is returned and none was created. *)
Theorem loader_module_scenario (trained : booster) (X_test : input) :
  let run := log_then_load_afresh (log_with_loader_module run_dir trained X_test)
               notebook_dir serving_dir (classifier_bundle run_dir) in
  trace run.2 =
    [ ReadManifest (classifier_bundle run_dir);
      ResolveArtifact "data" "xgb.model";
      ImportModule "loader_module";
      Call "loader_module" "_load_pyfunc" (VStr "xgb.model") ]
  ∧ run.1 = Raised (NameError "XGBClassifier")
  ∧ heap run.2 = [].
Proof. repeat split; vm_compute; reflexivity. Qed.

(** The two [predict] methods have one body. *)
Lemma predict_methods_agree (self : value) (context : PythonModelContext) (x : input)
  (p : process) :
  ModelWrapper_predict self context x p = MyModel_predict self x p.
Proof. reflexivity. Qed.

(** C4, at the two bundles and any input: the adapter-object bundle yields
    a predictor returning the wrapped model's [predict_proba]; the
    deferred-loader bundle yields none, its loader raising NameError, though
    the [predict] methods of the two classes are the same. *)
Theorem strategies_diverge (trained : booster) (X_test x : input) :
  (log_then_serve_afresh (log_serializable run_dir trained X_test)
     notebook_dir serving_dir (classifier_bundle run_dir) x).2
  = Returned (predict_proba_of trained x)
  ∧ (log_then_serve_afresh (log_with_loader_module run_dir trained X_test)
       notebook_dir serving_dir (classifier_bundle run_dir) x).2
    = Raised (NameError "XGBClassifier")
  ∧ (∀ self context p, ModelWrapper_predict self context x p = MyModel_predict self x p).
Proof. repeat split; vm_compute; reflexivity. Qed.

(** ** Further behaviour of the notebook's classes *)

Ltac state_simpl :=
  cbn [cwd modules heap disk trace with_heap with_modules with_disk with_trace fst snd].

Lemma lookup_snoc_length {A} (l : list A) (x : A) : (l ++ [x]) !! length l = Some x.
Proof.
  rewrite lookup_app_r by reflexivity.
  replace (length l - length l) with 0 by lia. reflexivity.
Qed.

(** X8: scoring never changes the process, whether it returns or raises:
    the three [predict] methods only read. *)
Theorem predict_only_reads (self : value) (context : PythonModelContext) (x : input)
  (p : process) :
  (ModelWrapper_predict self context x p).2 = p
  ∧ (ModelWrapper_artifacts_predict self context x p).2 = p
  ∧ (MyModel_predict self x p).2 = p.
Proof.
  assert (H : (MyModel_predict self x p).2 = p).
  { unfold MyModel_predict, bind, getattr.
    destruct self as [| |ls| |]; try reflexivity.
    destruct (heap p !! ls) as [[?|c attrs]|]; try reflexivity.
    destruct (attrs !! "_model") as [m|]; [|reflexivity].
    unfold classifier_method.
    destruct m as [| |lm| |]; try reflexivity.
    destruct (heap p !! lm) as [[bm|? ?]|] eqn:Hlm; try reflexivity.
    unfold xgb_predict_proba. rewrite Hlm. destruct bm; reflexivity. }
  repeat split; exact H.
Qed.

(** X9: the wrapper keeps a reference to the model, not a copy: when the
    model is fitted again after [ModelWrapper(model)] or [MyModel(model)]
    was built, the wrapper scores with the new booster. *)
Theorem wrapper_holds_reference (p : process) (lm : nat) (before : option booster)
  (after : booster) (context : PythonModelContext) (x : input) :
  heap p !! lm = Some (Classifier before) →
  ((let! w := instantiate (VClass C_ModelWrapper) [VRef lm] in
    xgb_fit lm after ;; ModelWrapper_predict w context x) p).1
  = Returned (predict_proba_of after x)
  ∧ ((let! w := instantiate (VClass C_MyModel) [VRef lm] in
      xgb_fit lm after ;; MyModel_predict w x) p).1
    = Returned (predict_proba_of after x).
Proof.
  intros Hlm.
  assert (Hlt : lm < length (heap p)) by (eapply lookup_lt_Some; eassumption).
  assert (H : ∀ c,
    let h2 := <[lm := Classifier (Some after)]>
                (<[length (heap p) := Instance c (<["_model" := VRef lm]> ∅)]>
                   (heap p ++ [Instance c ∅])) in
    h2 !! length (heap p) = Some (Instance c (<["_model" := VRef lm]> ∅))
    ∧ h2 !! lm = Some (Classifier (Some after))).
  { intros c h2. subst h2. split.
    - rewrite list_lookup_insert_ne by lia.
      apply list_lookup_insert_eq. rewrite length_app. simpl. lia.
    - apply list_lookup_insert_eq. rewrite length_insert, length_app. simpl. lia. }
  split.
  - destruct (H C_ModelWrapper) as [Hw Hm].
    unfold instantiate, bind, alloc, ModelWrapper__init__, setattr, ret, xgb_fit.
    cbn [heap with_heap]. rewrite lookup_snoc_length.
    unfold ModelWrapper_predict, bind, getattr, classifier_method, xgb_predict_proba.
    state_simpl. rewrite Hw, lookup_insert_eq. state_simpl. rewrite Hm.
    state_simpl. rewrite Hm. reflexivity.
  - destruct (H C_MyModel) as [Hw Hm].
    unfold instantiate, bind, alloc, MyModel__init__, setattr, ret, xgb_fit.
    cbn [heap with_heap]. rewrite lookup_snoc_length.
    unfold MyModel_predict, bind, getattr, classifier_method, xgb_predict_proba.
    state_simpl. rewrite Hw, lookup_insert_eq. state_simpl. rewrite Hm.
    state_simpl. rewrite Hm. reflexivity.
Qed.

(** X10: the second [ModelWrapper] has no constructor of its own, so an
    instance that has not been through [load_context] has no [_model]:
    scoring with it raises AttributeError for that attribute. *)
Theorem unloaded_wrapper_has_no_model (p : process) (context : PythonModelContext)
  (x : input) :
  ((let! w := instantiate (VClass C_ModelWrapper_artifacts) [] in
    ModelWrapper_artifacts_predict w context x) p).1
  = Raised (AttributeError "_model").
Proof.
  unfold instantiate, bind, alloc.
  unfold ModelWrapper_artifacts_predict, bind, getattr.
  state_simpl. rewrite lookup_snoc_length. reflexivity.
Qed.

(** X11: the first [ModelWrapper] accepts whatever it is given: building
    it over a classifier that was never fitted succeeds, and the failure
    appears only when scoring, as NotFittedError; over [None] it appears as
    AttributeError for [predict_proba]. *)
Theorem wrapper_defers_validation (p : process) (context : PythonModelContext)
  (x : input) :
  (∀ v, (instantiate (VClass C_ModelWrapper) [v] p).1 = Returned (VRef (length (heap p))))
  ∧ ((let! m := instantiate (VClass C_XGBClassifier) [] in
      let! w := instantiate (VClass C_ModelWrapper) [m] in
      ModelWrapper_predict w context x) p).1
    = Raised NotFittedError
  ∧ ((let! w := instantiate (VClass C_ModelWrapper) [VNone] in
      ModelWrapper_predict w context x) p).1
    = Raised (AttributeError "predict_proba").
Proof.
  split; [|split].
  - intros v. unfold instantiate, bind, alloc, ModelWrapper__init__, setattr, ret.
    cbn [heap with_heap]. rewrite lookup_snoc_length. reflexivity.
  - unfold instantiate, bind, alloc, ModelWrapper__init__, setattr, ret.
    cbn [heap with_heap].
    set (n := length (heap p)).
    rewrite length_app. cbn [length].
    replace (length (heap p) + 1) with (S n) by (subst n; lia).
    assert (Hw : ((heap p ++ [Classifier None]) ++ [Instance C_ModelWrapper ∅]) !! S n
                 = Some (Instance C_ModelWrapper ∅)).
    { rewrite lookup_app_r by (rewrite length_app; simpl; lia).
      rewrite length_app. simpl.
      replace (S n - (length (heap p) + 1)) with 0 by (subst n; lia). reflexivity. }
    rewrite Hw.
    set (h3 := <[S n := Instance C_ModelWrapper (<["_model" := VRef n]> ∅)]>
                 ((heap p ++ [Classifier None]) ++ [Instance C_ModelWrapper ∅])).
    assert (Hw3 : h3 !! S n = Some (Instance C_ModelWrapper (<["_model" := VRef n]> ∅))).
    { subst h3. apply list_lookup_insert_eq. rewrite !length_app. simpl. subst n. lia. }
    assert (Hm3 : h3 !! n = Some (Classifier None)).
    { subst h3. rewrite list_lookup_insert_ne by lia.
      rewrite lookup_app_l by (rewrite length_app; simpl; subst n; lia).
      subst n. apply lookup_snoc_length. }
    unfold ModelWrapper_predict, bind, getattr, classifier_method, xgb_predict_proba.
    state_simpl. rewrite Hw3, lookup_insert_eq. state_simpl. rewrite Hm3.
    state_simpl. rewrite Hm3. reflexivity.
  - unfold instantiate, bind, alloc, ModelWrapper__init__, setattr, ret.
    cbn [heap with_heap]. rewrite lookup_snoc_length.
    unfold ModelWrapper_predict, bind, getattr, classifier_method.
    state_simpl.
    rewrite list_lookup_insert_eq by (rewrite length_app; simpl; lia).
    rewrite lookup_insert_eq. reflexivity.
Qed.

(** X12: where the global [model] is a classifier and the artifact file
    holds a booster, [load_context] returns, having done two things: the
    wrapper's [_model] is a new classifier that was never fitted, and the
    booster from the file has replaced the state of the global [model]. *)
Theorem load_context_loads_the_global (p : process) (ls lm : nat) (c : pyclass)
  (attrs : gmap string value) (held : option booster) (context : PythonModelContext)
  (path : string) (b : booster) :
  heap p !! ls = Some (Instance c attrs) →
  modules p !! "__main__" ≫= (fun ns => ns !! "model") = Some (VRef lm) →
  heap p !! lm = Some (Classifier held) →
  artifacts context !! "model" = Some path →
  disk p !! resolve (cwd p) path = Some (ModelFile b) →
  let h' := <[lm := Classifier (Some b)]>
              (<[ls := Instance c (<["_model" := VRef (length (heap p))]> attrs)]>
                 (heap p ++ [Classifier None])) in
  ModelWrapper_artifacts_load_context (VRef ls) context p
    = (Returned tt, with_heap h' p)
  ∧ h' !! lm = Some (Classifier (Some b))
  ∧ h' !! ls = Some (Instance c (<["_model" := VRef (length (heap p))]> attrs))
  ∧ h' !! length (heap p) = Some (Classifier None).
Proof.
  intros Hls Hmodel Hlm Hart Hfile h'.
  assert (Hls_lt : ls < length (heap p)) by (eapply lookup_lt_Some; eassumption).
  assert (Hlm_lt : lm < length (heap p)) by (eapply lookup_lt_Some; eassumption).
  assert (Hne : ls ≠ lm) by (intros ->; congruence).
  set (h1 := heap p ++ [Classifier None]).
  set (h2 := <[ls := Instance c (<["_model" := VRef (length (heap p))]> attrs)]> h1).
  assert (Hlen1 : length h1 = S (length (heap p))).
  { subst h1. rewrite length_app. simpl. lia. }
  assert (H1ls : h1 !! ls = Some (Instance c attrs)).
  { subst h1. rewrite lookup_app_l by lia. exact Hls. }
  assert (H2lm : h2 !! lm = Some (Classifier held)).
  { subst h2 h1. rewrite list_lookup_insert_ne by exact Hne.
    rewrite lookup_app_l by lia. exact Hlm. }
  split; [|split; [|split]].
  - unfold ModelWrapper_artifacts_load_context, ModelWrapper_artifacts_load_context_in,
    bind, instantiate, alloc, setattr.
    state_simpl. fold h1. rewrite H1ls.
    unfold load_global. state_simpl. rewrite Hmodel.
    unfold classifier_method. state_simpl. fold h2. rewrite H2lm.
    rewrite Hart. unfold xgb_load_model. state_simpl. rewrite Hfile. reflexivity.
  - subst h'. apply list_lookup_insert_eq. rewrite length_insert. fold h1. lia.
  - subst h'. rewrite list_lookup_insert_ne by lia.
    apply list_lookup_insert_eq. fold h1. lia.
  - subst h'. rewrite !list_lookup_insert_ne by lia. apply lookup_snoc_length.
Qed.

(** X13: whenever [load_context] returns, the wrapper cannot score:
    [predict] raises NotFittedError, because the classifier it reads is the
    one [load_context] created and did not load. *)
Theorem predict_after_load_context (p p' : process) (self : value)
  (context : PythonModelContext) (x : input) (u : unit) :
  model_bound_inside p →
  ModelWrapper_artifacts_load_context self context p = (Returned u, p') →
  ModelWrapper_artifacts_predict self context x p' = (Raised NotFittedError, p').
Proof.
  intros Hwf.
  unfold ModelWrapper_artifacts_load_context, ModelWrapper_artifacts_load_context_in,
    bind, instantiate, alloc, setattr.
  state_simpl.
  set (n := length (heap p)).
  set (h1 := heap p ++ [Classifier None]).
  assert (Hn1 : h1 !! n = Some (Classifier None)) by apply lookup_snoc_length.
  destruct self as [| |ls| |]; try discriminate.
  destruct (h1 !! ls) as [[?|c attrs]|] eqn:Hls; try discriminate.
  assert (Hne : ls ≠ n) by (intros ->; congruence).
  set (h2 := <[ls := Instance c (<["_model" := VRef n]> attrs)]> h1).
  assert (Hls2 : h2 !! ls = Some (Instance c (<["_model" := VRef n]> attrs))).
  { subst h2. apply list_lookup_insert_eq. eapply lookup_lt_Some; eassumption. }
  assert (Hn2 : h2 !! n = Some (Classifier None)).
  { subst h2. rewrite list_lookup_insert_ne by assumption. exact Hn1. }
  unfold load_global. state_simpl.
  destruct (modules p !! "__main__" ≫= _) as [model|] eqn:Hmodel; [|discriminate].
  unfold classifier_method. state_simpl.
  destruct model as [| |lm| |]; try discriminate.
  destruct (h2 !! lm) as [[bm|? ?]|] eqn:Hlm; try discriminate.
  assert (Hlm_lt : lm < n) by (apply Hwf; exact Hmodel).
  destruct (artifacts context !! "model") as [path|]; [|discriminate].
  unfold xgb_load_model. state_simpl.
  destruct (disk p !! _) as [[b| | |]|]; try discriminate.
  intros [= _ <-].
  unfold ModelWrapper_artifacts_predict, bind, getattr. state_simpl.
  rewrite list_lookup_insert_ne by (intros ->; congruence).
  rewrite Hls2, lookup_insert_eq.
  unfold classifier_method. state_simpl.
  rewrite list_lookup_insert_ne by lia. rewrite Hn2.
  unfold xgb_predict_proba. state_simpl.
  rewrite list_lookup_insert_ne by lia. rewrite Hn2. reflexivity.
Qed.

(** X14: with a global [model] in place but no artifact named "model" in
    the context, [load_context] raises KeyError for that name; the wrapper's
    [_model] has by then been replaced by the unfitted classifier. *)
Theorem load_context_missing_artifact (p : process) (ls lm : nat) (c : pyclass)
  (attrs : gmap string value) (held : option booster) (context : PythonModelContext) :
  heap p !! ls = Some (Instance c attrs) →
  modules p !! "__main__" ≫= (fun ns => ns !! "model") = Some (VRef lm) →
  heap p !! lm = Some (Classifier held) →
  artifacts context !! "model" = None →
  ModelWrapper_artifacts_load_context (VRef ls) context p
  = (Raised (KeyError "model"),
     with_heap (<[ls := Instance c (<["_model" := VRef (length (heap p))]> attrs)]>
                  (heap p ++ [Classifier None])) p).
Proof.
  intros Hls Hmodel Hlm Hart.
  assert (Hls_lt : ls < length (heap p)) by (eapply lookup_lt_Some; eassumption).
  assert (Hlm_lt : lm < length (heap p)) by (eapply lookup_lt_Some; eassumption).
  assert (Hne : ls ≠ lm) by (intros ->; congruence).
  unfold ModelWrapper_artifacts_load_context, ModelWrapper_artifacts_load_context_in,
    bind, instantiate, alloc, setattr.
  state_simpl. rewrite lookup_app_l by lia. rewrite Hls.
  unfold load_global. state_simpl. rewrite Hmodel.
  unfold classifier_method. state_simpl.
  rewrite list_lookup_insert_ne by exact Hne.
  rewrite lookup_app_l by lia. rewrite Hlm, Hart. reflexivity.
Qed.

(** X15: in a process that has not imported [loader_module] before,
    importing [loader_module.py] and calling its [_load_pyfunc] raises
    NameError for [XGBClassifier], for every path, also where the
    notebook's own namespace has the class imported: the function reads the
    name in its own module, which never binds it.  No object is created
    and no file is read. *)
Theorem imported_loader_raises (p : process) (data_path : string) :
  modules p !! "loader_module" = None →
  (import_module "loader_module" loader_module_defs ;; _load_pyfunc data_path) p
  = (Raised (NameError "XGBClassifier"),
     with_modules (<["loader_module" := list_to_map loader_module_defs]> (modules p)) p).
Proof.
  intros Hnew.
  unfold bind at 1. unfold import_module at 1. rewrite Hnew.
  apply _load_pyfunc_unbound_class.
  state_simpl. rewrite lookup_insert_eq. vm_compute. reflexivity.
Qed.

Lemma resolve_resolve (dir path : string) :
  is_absolute dir = true → resolve dir (resolve dir path) = resolve dir path.
Proof.
  intros Hdir. unfold resolve at 2 3.
  destruct (is_absolute path) eqn:Hpath.
  - unfold resolve. rewrite Hpath. reflexivity.
  - unfold resolve.
    destruct dir as [|a dir]; [discriminate|].
    change (is_absolute (String a dir +:+ "/" +:+ path)) with (is_absolute (String a dir)).
    rewrite Hdir. reflexivity.
Qed.

(** X16: in a process where [loader_module] does bind the two class names,
    [_load_pyfunc] reads the model file at the given path taken from the
    working directory of that process, and returns a new [MyModel] whose
    [predict] scores with the booster stored in that file; the files and
    the namespaces are left as they were. *)
Theorem load_pyfunc_reads_working_directory (p : process) (ns : gmap string value)
  (data_path : string) (b : booster) (x : input) :
  modules p !! "loader_module" = Some ns →
  ns !! "XGBClassifier" = Some (VClass C_XGBClassifier) →
  ns !! "MyModel" = Some (VClass C_MyModel) →
  is_absolute (cwd p) = true →
  disk p !! resolve (cwd p) data_path = Some (ModelFile b) →
  ∃ p', _load_pyfunc data_path p = (Returned (VRef (S (length (heap p)))), p')
        ∧ MyModel_predict (VRef (S (length (heap p)))) x p'
          = (Returned (predict_proba_of b x), p')
        ∧ disk p' = disk p
        ∧ modules p' = modules p.
Proof.
  intros Hns Hcls Hmy Hcwd Hfile.
  set (n := length (heap p)).
  set (h1 := <[n := Classifier (Some b)]> (heap p ++ [Classifier None])).
  set (h2 := <[S n := Instance C_MyModel (<["_model" := VRef n]> ∅)]>
               (h1 ++ [Instance C_MyModel ∅])).
  assert (Hlen1 : length h1 = S n).
  { subst h1. rewrite length_insert, length_app. simpl. subst n. lia. }
  assert (Hself : h2 !! S n = Some (Instance C_MyModel (<["_model" := VRef n]> ∅))).
  { subst h2. apply list_lookup_insert_eq. rewrite length_app, Hlen1. simpl. lia. }
  assert (Hmodel : h2 !! n = Some (Classifier (Some b))).
  { subst h2. rewrite list_lookup_insert_ne by lia.
    rewrite lookup_app_l by lia. subst h1.
    apply list_lookup_insert_eq. rewrite length_app. simpl. subst n. lia. }
  exists (with_heap h2 p).
  split; [|split; [|split]]; try reflexivity.
  - unfold _load_pyfunc, bind, load_global. rewrite Hns. simpl. rewrite Hcls.
    unfold instantiate at 1. unfold alloc at 1.
    unfold classifier_method. state_simpl. rewrite lookup_snoc_length.
    unfold abspath, xgb_load_model. state_simpl.
    rewrite resolve_resolve by exact Hcwd. rewrite Hfile.
    state_simpl. rewrite Hns. simpl. rewrite Hmy.
    unfold instantiate, bind, alloc, MyModel__init__, setattr, ret.
    state_simpl. fold n. fold h1. rewrite Hlen1.
    rewrite (lookup_app_r h1) by lia. rewrite Hlen1.
    replace (S n - S n) with 0 by lia. reflexivity.
  - unfold MyModel_predict, bind, getattr, classifier_method, xgb_predict_proba.
    state_simpl. rewrite Hself, lookup_insert_eq. state_simpl. rewrite Hmodel.
    state_simpl. rewrite Hmodel. reflexivity.
Qed.

End Model.

(** ** A concrete framework *)

(** Boosters, inputs and outputs as numbers, to run the definitions. *)
Definition toy : Framework :=
  {| booster := nat; input := nat; output := nat; schema := unit;
     predict_proba_of := Nat.add; predict_of := Nat.mul;
     infer_signature := fun _ _ => tt |}.

(** A bundle directory holding nothing. *)
Definition empty_process : process (F := toy) := new_process "/srv" ∅.

(** A bundle whose manifest names two artifacts, the second without its
    file. *)
Definition torn_manifest : manifest (F := toy) :=
  {| flavor := "python_function";
     entry := PythonModel "python_model.pkl";
     signature := None;
     artifact_paths := [ ("model", "artifacts/model"); ("scaler", "artifacts/scaler") ];
     code := [] |}.

Definition torn_process : process (F := toy) :=
  new_process "/srv"
    (<["/bundle/MLmodel" := @ManifestFile toy torn_manifest]>
       (<["/bundle/artifacts/model" := @ModelFile toy 7]>
          (<["/bundle/python_model.pkl" :=
               @PickleFile toy (PInstance C_ModelWrapper_artifacts [])]> ∅))).

Lemma loader_error_taxonomy_witness :
  load "/bundle" empty_process
    = (Raised ManifestMissing, with_trace [ReadManifest "/bundle"] empty_process)
  ∧ ∃ pre name rel post,
      artifact_paths torn_manifest = pre ++ (name, rel) :: post
      ∧ Forall (present torn_process "/bundle") pre
      ∧ absent torn_process "/bundle" (name, rel)
      ∧ load "/bundle" torn_process
        = (Raised (UnresolvedArtifact name rel),
           with_trace (trace torn_process
                       ++ ReadManifest "/bundle" :: probes (pre ++ [(name, rel)]))
             torn_process)
      ∧ ∀ x : input, (serve "/bundle" x torn_process).1 = Raised (UnresolvedArtifact name rel).
Proof.
  split.
  - apply (proj1 (loader_error_taxonomy empty_process "/bundle")).
    intros [m Hm]. vm_compute in Hm. discriminate Hm.
  - apply (proj2 (loader_error_taxonomy torn_process "/bundle") torn_manifest).
    + vm_compute. reflexivity.
    + exists ("scaler", "artifacts/scaler"). split.
      * right. left.
      * vm_compute. reflexivity.
Defined.

Example torn_bundle_load :
  load "/bundle" torn_process
  = (Raised (UnresolvedArtifact "scaler" "artifacts/scaler"),
     with_trace [ ReadManifest "/bundle"; ResolveArtifact "model" "artifacts/model";
                  ResolveArtifact "scaler" "artifacts/scaler" ] torn_process).
Proof. vm_compute. reflexivity. Qed.

(** ** Sample processes *)

(** A notebook kernel after the artifacts cell: the fitted global [model],
    a wrapper that has not been through [load_context], the bundled file. *)
Definition kernel : process (F := toy) :=
  {| cwd := "/home/nb";
     modules := {["__main__" := {["model" := VRef 0]}]};
     heap := [@Classifier toy (Some 7); @Instance toy C_ModelWrapper_artifacts ∅];
     disk := {["/bundle/artifacts/model" := @ModelFile toy 5]};
     trace := [] |}.


(** A process in which [loader_module] has been given the class names. *)
Definition patched_process : process (F := toy) :=
  {| cwd := "/srv";
     modules :=
       {["loader_module" :=
           <["XGBClassifier" := VClass C_XGBClassifier]>
             (<["MyModel" := VClass C_MyModel]> ∅)]};
     heap := [];
     disk := {["/srv/xgb.model" := @ModelFile toy 5]};
     trace := [] |}.

(** A notebook kernel that has imported [XGBClassifier] and never
    imported [loader_module]. *)
Definition importing_kernel : process (F := toy) :=
  {| cwd := "/home/nb";
     modules := {["__main__" := {["XGBClassifier" := VClass C_XGBClassifier]}]};
     heap := [];
     disk := {["/home/nb/xgb.model" := @ModelFile toy 5]};
     trace := [] |}.

Definition bundle_context : PythonModelContext :=
  {| artifacts := {["model" := "/bundle/artifacts/model"]} |}.

Definition empty_context : PythonModelContext := {| artifacts := ∅ |}.

Lemma kernel_model_bound_inside : model_bound_inside kernel.
Proof. intros l H. vm_compute in H. injection H as <-. simpl. lia. Qed.

Lemma wrapper_holds_reference_witness :
  heap kernel !! 0 = Some (@Classifier toy (Some 7))
  ∧ (bind (instantiate (VClass C_ModelWrapper) [VRef 0])
       (fun w => bind (xgb_fit 0 (9 : @booster toy))
                   (fun _ => ModelWrapper_predict w bundle_context (3 : @input toy)))
       kernel).1
    = Returned (12 : @output toy).
Proof.
  split; [reflexivity|].
  apply (wrapper_holds_reference kernel 0 (Some 7) 9 bundle_context 3). reflexivity.
Defined.

Lemma load_context_loads_the_global_witness :
  artifacts bundle_context !! "model" = Some "/bundle/artifacts/model"
  ∧ ModelWrapper_artifacts_load_context (VRef 1) bundle_context kernel
    = (Returned tt,
       with_heap [ @Classifier toy (Some 5);
                   @Instance toy C_ModelWrapper_artifacts (<["_model" := VRef 2]> ∅);
                   @Classifier toy None ] kernel).
Proof.
  split; [reflexivity|].
  apply (load_context_loads_the_global kernel 1 0 C_ModelWrapper_artifacts ∅ (Some 7)
           bundle_context "/bundle/artifacts/model" 5); vm_compute; reflexivity.
Defined.

Lemma predict_after_load_context_witness :
  (ModelWrapper_artifacts_load_context (VRef 1) bundle_context kernel).1 = Returned tt
  ∧ (ModelWrapper_artifacts_predict (VRef 1) bundle_context (3 : @input toy)
       (ModelWrapper_artifacts_load_context (VRef 1) bundle_context kernel).2).1
    = Raised NotFittedError.
Proof.
  split; [vm_compute; reflexivity|].
  rewrite (predict_after_load_context kernel
             (ModelWrapper_artifacts_load_context (VRef 1) bundle_context kernel).2
             (VRef 1) bundle_context 3 tt kernel_model_bound_inside).
  - reflexivity.
  - vm_compute. reflexivity.
Defined.

Lemma load_context_missing_artifact_witness :
  artifacts empty_context !! "model" = None
  ∧ (ModelWrapper_artifacts_load_context (VRef 1) empty_context kernel).1
    = Raised (KeyError "model").
Proof.
  split; [reflexivity|].
  rewrite (load_context_missing_artifact kernel 1 0 C_ModelWrapper_artifacts ∅ (Some 7)
             empty_context); reflexivity.
Defined.


Lemma imported_loader_raises_witness :
  load_global "__main__" "XGBClassifier" importing_kernel
    = (Returned (VClass C_XGBClassifier), importing_kernel)
  ∧ (bind (import_module "loader_module" loader_module_defs)
       (fun _ => _load_pyfunc "xgb.model") importing_kernel).1
    = Raised (NameError "XGBClassifier").
Proof.
  split; [vm_compute; reflexivity|].
  rewrite (imported_loader_raises importing_kernel "xgb.model");
    [reflexivity | vm_compute; reflexivity].
Defined.

Lemma load_pyfunc_reads_working_directory_witness :
  disk patched_process !! "/srv/xgb.model" = Some (@ModelFile toy 5)
  ∧ ∃ p', _load_pyfunc "xgb.model" patched_process = (Returned (VRef 1), p')
          ∧ MyModel_predict (VRef 1) (3 : @input toy) p' = (Returned (8 : @output toy), p')
          ∧ disk p' = disk patched_process
          ∧ modules p' = modules patched_process.
Proof.
  split; [vm_compute; reflexivity|].
  apply (load_pyfunc_reads_working_directory patched_process
           (<["XGBClassifier" := VClass C_XGBClassifier]>
              (<["MyModel" := VClass C_MyModel]> ∅)) "xgb.model" 5 3);
    vm_compute; reflexivity.
Defined.

End Packaging.
